(** * disdrillery: the drilling engine and the commit-history transformer

    A shallow embedding of [disdrillery.Disdriller] (Init, AppendTransformer,
    Analyze, visitCommit, GetMetaInfos) and of
    [transformer.CommitHistoryTransformer], with the properties the
    specification states about them.

    Go values are modelled as follows.
    - [int] and [int64] are [Z] with the 64-bit signed wrap-around written
      out ([wrap64]).
    - A [*string] is an address into a heap of string cells; a transformer
      behind the [Transformer] interface is an address into a heap of
      transformer objects.  Both heaps are lists indexed by address, and
      allocation appends a cell.
    - Calls into go-git, the logger, the progress callback and the export
      sink are recorded in a trace of events; what go-git answers is an
      input ([Env], [Repository], [Commit]).
    - [log.Fatal] and a panic end the run: an [Outcome] is a return value,
      a fatal exit or a panic. *)

From Stdlib Require Import ZArith String List Lia.
From stdpp Require Import base list strings.

Open Scope string_scope.
Open Scope Z_scope.
Open Scope list_scope.

(** ** Machine integers *)

(** Go's [int] on the 64-bit targets and [int64]: two's complement. *)
Definition wrap64 (z : Z) : Z := (z + 2 ^ 63) mod 2 ^ 64 - 2 ^ 63.

(** ** go-git values read by the engine *)

(** An address. *)
Abbreviation ptr := nat.

(** [plumbing.Hash] is a [[20]byte]; [Hash.String()] is its hex encoding,
    always 40 characters long.  The hash is kept in that printed form. *)
Record Hash := mkHash {
  hex : string;
  hex_length : String.length hex = 40%nat
}.

Definition Hash_String (h : Hash) : string := hex h.

(** [s[0:6]] on a string at least 6 bytes long. *)
Definition slice_0_6 (s : string) : string := substring 0 6 s.

(** [object.Signature]; [When] is kept as [When.Unix()]. *)
Record Signature := mkSignature {
  Name : string;
  Email : string;
  When_Unix : Z
}.

(** [object.File]: the fields the engine reads. *)
Record File := mkFile {
  File_Name : string;
  File_Hash : Hash;
  File_Size : Z
}.

(** What [commit.Files()] and the iteration over its result give:
    [Files()] fails, or it returns an iterator whose [ForEach] hands the
    files of the tree to the callback and then returns [err].  The callbacks
    of this program always return [nil], so an iteration stops early only
    on go-git's own error, after the files listed. *)
Inductive FilesResult :=
| FilesError (err : string)
| FileIter (files : list File) (err : option string).

(** [object.Commit]. *)
Record Commit := mkCommit {
  Commit_Hash : Hash;
  Author : Signature;
  Committer : Signature;
  Message : string;
  ParentHashes : list Hash;
  Files : FilesResult
}.

(** [git.Repository]: [Head()] and [Log(&LogOptions{From, All: true})].
    [Log] fails, or returns an iterator whose [ForEach] visits the commits
    listed and then returns the error given.  The repository is not changed
    by the engine, so every call of [Log] answers the same. *)
Record Repository := mkRepository {
  Head : string + Hash;
  Log : Hash -> string + (list Commit * option string)
}.

(** ** package model *)

Module RepositoryConfig.
Record t := mk {
  RepositoryUrl : string;
  IsLocal : bool;
  UseInMemoryTempRepository : bool;
  PrintLogs : bool
}.
End RepositoryConfig.

Module CommitVertex.
Record t := mk {
  RepositoryName : string;
  CommitHash : string;
  AuthorName : string;
  AuthorMail : string;
  AuthorTimestamp : Z;
  CommitterName : string;
  CommitterMail : string;
  CommitterTimestamp : Z;
  CommitMessage : string
}.
End CommitVertex.

(** Both fields are [*string]: the transformer fills them with [&commitHash]
    and [&parent]. *)
Module CommitEdge.
Record t := mk {
  CommitHash : ptr;
  ParentCommitHash : ptr
}.
End CommitEdge.

Module FileContentVertex.
Record t := mk {
  CommitHash : string;
  ObjectHash : string;
  FileName : string;
  FileSize : Z
}.
End FileContentVertex.

(** ** The heap of string cells *)

Abbreviation Strings := (list string).

(** A variable whose address is taken lives in a cell of its own. *)
Definition alloc (h : Strings) (v : string) : ptr * Strings :=
  (List.length h, h ++ [v]).

Definition store (h : Strings) (p : ptr) (v : string) : Strings :=
  <[p := v]> h.

(** [*p]; every address the program holds was allocated, so the default is
    never read. *)
Definition load (h : Strings) (p : ptr) : string :=
  default "" (h !! p).

(** An edge as the export sink reads it, through its two pointers. *)
Definition edge_value (h : Strings) (e : CommitEdge.t) : string * string :=
  (load h (CommitEdge.CommitHash e), load h (CommitEdge.ParentCommitHash e)).

(** ** transformer.CommitHistoryTransformer *)

Module CommitHistoryTransformer.

Definition CommitHistoryTransformerName : string := "CommitHistoryTransformer".

Record t := mk {
  name : string;
  operationalLevel : string;
  vertexOutput : string;
  edgeOutput : string;
  vertexData : list CommitVertex.t;
  edgeData : list CommitEdge.t
}.

Definition GetName (transformer : t) : string := name transformer.

Definition GetOperationalLevel (transformer : t) : string :=
  operationalLevel transformer.

Definition set_vertexData (transformer : t) (d : list CommitVertex.t) : t :=
  mk (name transformer) (operationalLevel transformer)
     (vertexOutput transformer) (edgeOutput transformer)
     d (edgeData transformer).

Definition set_edgeData (transformer : t) (d : list CommitEdge.t) : t :=
  mk (name transformer) (operationalLevel transformer)
     (vertexOutput transformer) (edgeOutput transformer)
     (vertexData transformer) d.

Definition AppendCommitVertex (transformer : t) (commit : CommitVertex.t) : t :=
  set_vertexData transformer (vertexData transformer ++ [commit]).

(** The body of [for _, parent := range parentHashes]: [parent] is the
    cell [pp], assigned at the start of every iteration; the entry holds
    the addresses [pc] of [commitHash] and [pp] of [parent]. *)
Fixpoint AppendCommitEdge_loop (pc pp : ptr) (parentHashes : list string)
    (transformer : t) (h : Strings) : t * Strings :=
  match parentHashes with
  | [] => (transformer, h)
  | parent :: rest =>
      let h := store h pp parent in
      let entry := CommitEdge.mk pc pp in
      let transformer :=
        set_edgeData transformer (edgeData transformer ++ [entry]) in
      AppendCommitEdge_loop pc pp rest transformer h
  end.

(** [commitHash] is a parameter whose address escapes: one cell a call.
    [parent] is the range variable, declared once for the whole loop (the
    semantics of the Go versions this code was written for, before 1.22):
    one cell a call as well, shared by every entry the call appends. *)
Definition AppendCommitEdge (transformer : t) (commitHash : string)
    (parentHashes : list string) (h : Strings) : t * Strings :=
  let '(pc, h) := alloc h commitHash in
  let '(pp, h) := alloc h "" in
  AppendCommitEdge_loop pc pp parentHashes transformer h.

Definition GetVertexData (transformer : t) : list CommitVertex.t :=
  vertexData transformer.

Definition GetEdgeData (transformer : t) : list CommitEdge.t :=
  edgeData transformer.

Definition GetInstance : t :=
  mk CommitHistoryTransformerName "commit"
     "data/commit-vertices.parquet" "data/commit-edges.parquet" [] [].

End CommitHistoryTransformer.

(** ** The other transformers and the catalogue record *)

(** Modelled from the spec: the file-inventory transformer
    ([transformer.CommitContentTransformer]) is called by [visitCommit] but
    its source is not among the files at hand.  The spec: it "buffers a
    sequence of FileContentVertex; export flushes one output; performs
    content-copy side effects during consumption". *)
Module CommitContentTransformer.

(** Modelled from the spec: the struct of the transformer, absent from the
    sources; a name, an operational level, one output and the buffer of
    rows. *)
Record t := mk {
  name : string;
  operationalLevel : string;
  output : string;
  fileData : list FileContentVertex.t
}.

Definition GetName (transformer : t) : string := name transformer.

(** Modelled from the spec: [AppendFileContentVertices], absent from the
    sources; the rows are buffered after those already there. *)
Definition AppendFileContentVertices (transformer : t)
    (vertices : list FileContentVertex.t) : t :=
  mk (name transformer) (operationalLevel transformer) (output transformer)
     (fileData transformer ++ vertices).

End CommitContentTransformer.

(** Modelled from the spec: the structure-summary transformer
    ([transformer.StructureInfoTransformer]) is not among the files at hand.
    The spec leaves open how the counts are aggregated, so the counts fed to
    [AddFileCount] are kept in the order they arrive. *)
Module StructureInfoTransformer.

(** Modelled from the spec: the struct of the transformer, absent from the
    sources; [fileCounts] are the counts it has been fed. *)
Record t := mk {
  name : string;
  operationalLevel : string;
  output : string;
  fileCounts : list Z
}.

Definition GetName (transformer : t) : string := name transformer.

(** Modelled from the spec: [AddFileCount], absent from the sources; "feed
    the count into the accumulator". *)
Definition AddFileCount (transformer : t) (count : Z) : t :=
  mk (name transformer) (operationalLevel transformer) (output transformer)
     (fileCounts transformer ++ [count]).

End StructureInfoTransformer.

(** Modelled from the spec: [index.Meta] is declared outside the files at
    hand; the spec gives it as "Meta{name, schema, operationalLevel}". *)
Module Meta.
(** Modelled from the spec: the struct [index.Meta], absent from the
    sources. *)
Record t := mk {
  Name : string;
  Schema : string;
  OperationalLevel : string
}.
(** The zero value of the struct. *)
Definition zero : t := mk "" "" "".
End Meta.

(** The dynamic type and the object behind a [transformer.Transformer]
    interface value.  The methods have pointer receivers, so the interface
    holds a pointer; [OtherTransformer] is any implementation the engine
    does not know by type. *)
Inductive Transformer :=
| CommitHistory (v : CommitHistoryTransformer.t)
| CommitContent (v : CommitContentTransformer.t)
| StructureInfo (v : StructureInfoTransformer.t)
| OtherTransformer (name : string).

Definition Transformer_GetName (o : Transformer) : string :=
  match o with
  | CommitHistory v => CommitHistoryTransformer.GetName v
  | CommitContent v => CommitContentTransformer.GetName v
  | StructureInfo v => StructureInfoTransformer.GetName v
  | OtherTransformer name => name
  end.

(** ** The engine's state, the trace and the outcome of a call *)

Record Disdriller := mkDisdriller {
  repository : option Repository;
  transformer : list ptr;
  config : option RepositoryConfig.t
}.

(** Rows handed to the export sink; edges are read through their pointers. *)
Inductive Rows :=
| VertexRows (rows : list CommitVertex.t)
| EdgeRows (rows : list (string * string))
| FileRows (rows : list FileContentVertex.t)
| SummaryRows (rows : list Z).

(** The calls of [Analyze] the spec speaks of. *)
Inductive Call :=
| CallLog (from : Hash)
| CallVisitCommit (t : ptr) (commit : Commit)
| CallExport (t : ptr).

Inductive Event :=
| EvLog (text : string)
| EvLogCloningTo (dir : string)
| EvLogFound (name : string)
| EvLogCount (n : nat)
| EvLogRunning (i n : nat) (name : string)
| EvProgress (state : string)
| EvProcessed (count : Z)
| EvGitClone (url : string) (progress : bool)
| EvTempDir (pattern : string)
| EvGitPlainClone (dir url : string) (progress : bool)
| EvRepoHead
| EvCall (c : Call)
| EvCopyFile (t : ptr) (file : File)
| EvExportRows (target : string) (rows : Rows).

Record World := mkWorld {
  driller : Disdriller;
  strs : Strings;
  objs : list Transformer;
  trace : list Event
}.

Inductive Outcome (A : Type) :=
| Returned (a : A)
| Exited (msg : string)
| Panicked (msg : string).
Arguments Returned {A} a.
Arguments Exited {A} msg.
Arguments Panicked {A} msg.

Definition M (A : Type) : Type := World -> Outcome A * World.

#[global] Instance M_ret : MRet M := fun A a w => (Returned a, w).

#[global] Instance M_bind : MBind M := fun A B f m w =>
  match m w with
  | (Returned a, w) => f a w
  | (Exited msg, w) => (Exited msg, w)
  | (Panicked msg, w) => (Panicked msg, w)
  end.

Definition emit (e : Event) : M unit := fun w =>
  (Returned tt, mkWorld (driller w) (strs w) (objs w) (trace w ++ [e])).

Definition panic {A} (msg : string) : M A := fun w => (Panicked msg, w).

(** [log.Panic]: the line is logged, then the goroutine panics. *)
Definition log_Panic {A} (msg : string) : M A :=
  emit (EvLog msg) ;; panic msg.

(** [os.Exit(1)]. *)
Definition exit {A} (msg : string) : M A := fun w => (Exited msg, w).

(** [log.Fatal]: the line is logged, then the process exits. *)
Definition log_Fatal {A} (msg : string) : M A :=
  emit (EvLog msg) ;; exit msg.

Definition get_driller : M Disdriller := fun w => (Returned (driller w), w).

Definition get_strs : M Strings := fun w => (Returned (strs w), w).

Definition set_driller (d : Disdriller) : M unit := fun w =>
  (Returned tt, mkWorld d (strs w) (objs w) (trace w)).

Definition nil_dereference : string :=
  "invalid memory address or nil pointer dereference".

(** The object behind an interface value, [None] for a nil one. *)
Definition dynamic (t : ptr) : M (option Transformer) := fun w =>
  (Returned (objs w !! t), w).

(** A method call through the interface: a nil one panics. *)
Definition deref (t : ptr) : M Transformer :=
  o ← dynamic t;
  match o with
  | Some o => mret o
  | None => panic nil_dereference
  end.

(** A method of [*CommitHistoryTransformer] run on the object at [v]. *)
Definition on_CommitHistory (v : ptr)
    (f : CommitHistoryTransformer.t -> Strings -> CommitHistoryTransformer.t * Strings)
    : M unit := fun w =>
  match objs w !! v with
  | Some (CommitHistory x) =>
      let '(x, h) := f x (strs w) in
      (Returned tt, mkWorld (driller w) h (<[v := CommitHistory x]> (objs w)) (trace w))
  | _ => (Panicked "not a *CommitHistoryTransformer", w)
  end.

Definition on_CommitContent (v : ptr)
    (f : CommitContentTransformer.t -> CommitContentTransformer.t) : M unit := fun w =>
  match objs w !! v with
  | Some (CommitContent x) =>
      (Returned tt,
       mkWorld (driller w) (strs w) (<[v := CommitContent (f x)]> (objs w)) (trace w))
  | _ => (Panicked "not a *CommitContentTransformer", w)
  end.

Definition on_StructureInfo (v : ptr)
    (f : StructureInfoTransformer.t -> StructureInfoTransformer.t) : M unit := fun w =>
  match objs w !! v with
  | Some (StructureInfo x) =>
      (Returned tt,
       mkWorld (driller w) (strs w) (<[v := StructureInfo (f x)]> (objs w)) (trace w))
  | _ => (Panicked "not a *StructureInfoTransformer", w)
  end.

(** What the repository provider answers: [git.Clone] into memory storage
    for a URL, [ioutil.TempDir("", pattern)], [git.PlainClone] into a
    directory for a URL.  Each is the pair Go returns. *)
Record Env := mkEnv {
  git_Clone : string -> option Repository * option string;
  ioutil_TempDir : string -> string * option string;
  git_PlainClone : string -> string -> option Repository * option string
}.

(** ** package disdrillery *)

Section Engine.

(** Helpers of the repository that are declared outside the files at hand:
    [model.RepositoryConfig.GetRepositoryName], [utils.ShortenHash] and
    the [GetMetaInfo] method of the transformers. *)
Variable GetRepositoryName : RepositoryConfig.t -> string.
Variable ShortenHash : string -> string.
Variable GetMetaInfo : Transformer -> list Meta.t.

Definition cloning_into_memory : string :=
  "Cloning repository into memory. This can speed up transformation, but also requires a lot of memory when having huge repositories. Consider using the --in-memory=false option in case of issues.".

Definition local_not_supported : string :=
  "Using local repositories is not yet supported.".

Definition Init (env : Env) (cfg : RepositoryConfig.t) : M unit :=
  d ← get_driller;
  set_driller (mkDisdriller (repository d) (transformer d) (Some cfg)) ;;
  let progress := RepositoryConfig.PrintLogs cfg in
  r ← (if RepositoryConfig.IsLocal cfg then
         log_Panic local_not_supported
       else
         let url := RepositoryConfig.RepositoryUrl cfg in
         if RepositoryConfig.UseInMemoryTempRepository cfg then
           emit (EvLog cloning_into_memory) ;;
           emit (EvGitClone url progress) ;;
           let '(r, err) := git_Clone env url in
           match err with
           | Some e => log_Fatal e
           | None => mret r
           end
         else
           emit (EvTempDir (GetRepositoryName cfg)) ;;
           let '(dir, err) := ioutil_TempDir env (GetRepositoryName cfg) in
           match err with
           | Some e => log_Fatal e
           | None =>
               emit (EvLogCloningTo dir) ;;
               emit (EvGitPlainClone dir url progress) ;;
               let '(r, err) := git_PlainClone env dir url in
               mret r
           end);
  d ← get_driller;
  set_driller (mkDisdriller r (transformer d) (config d)).

Definition GetGoGitRepository : M (option Repository) :=
  d ← get_driller; mret (repository d).

Definition AppendTransformer (t : ptr) : M unit :=
  d ← get_driller;
  set_driller (mkDisdriller (repository d) (transformer d ++ [t]) (config d)) ;;
  o ← deref t;
  emit (EvLogFound (Transformer_GetName o)).

(** [driller.config.GetRepositoryName()]: [config] is a pointer, nil until
    [Init] has run. *)
Definition config_GetRepositoryName : M string :=
  d ← get_driller;
  match config d with
  | Some c => mret (GetRepositoryName c)
  | None => panic nil_dereference
  end.

Definition vertex_of (repositoryName shortCommitHash : string) (commit : Commit)
    : CommitVertex.t :=
  CommitVertex.mk repositoryName shortCommitHash
    (Name (Author commit)) (Email (Author commit)) (When_Unix (Author commit))
    (Name (Committer commit)) (Email (Committer commit))
    (When_Unix (Committer commit)) (Message commit).

(** The callback of [files.ForEach] in the file-inventory branch, run over
    the files the iterator yields. *)
Fixpoint files_ForEach (v : ptr) (commit : Commit) (files : list File)
    (treeData : list FileContentVertex.t) (count : Z)
    : M (list FileContentVertex.t * Z) :=
  match files with
  | [] => mret (treeData, count)
  | file :: rest =>
      let shortCommitHash := slice_0_6 (Hash_String (Commit_Hash commit)) in
      let shortObjectHash := slice_0_6 (Hash_String (File_Hash file)) in
      let treeData :=
        treeData ++ [FileContentVertex.mk shortCommitHash shortObjectHash
                       (File_Name file) (File_Size file)] in
      emit (EvCopyFile v file) ;;
      let count := wrap64 (count + 1) in
      files_ForEach v commit rest treeData count
  end.

(** The callback of [files.ForEach] in the structure branch: [count++]. *)
Fixpoint count_files (files : list File) (count : Z) : Z :=
  match files with
  | [] => count
  | _ :: rest => count_files rest (wrap64 (count + 1))
  end.

Definition visitCommit (commit : Commit) (t : ptr) : M Z :=
  let count := 0 in
  o ← dynamic t;
  match o with
  | Some (CommitHistory _) =>
      let shortCommitHash := ShortenHash (Hash_String (Commit_Hash commit)) in
      repositoryName ← config_GetRepositoryName;
      on_CommitHistory t (fun v h =>
        (CommitHistoryTransformer.AppendCommitVertex v
           (vertex_of repositoryName shortCommitHash commit), h)) ;;
      let pHashes := map Hash_String (ParentHashes commit) in
      on_CommitHistory t (fun v h =>
        CommitHistoryTransformer.AppendCommitEdge v
          (Hash_String (Commit_Hash commit)) pHashes h)
  | _ => mret tt
  end ;;
  r ← match o with
      | Some (CommitContent _) =>
          match Files commit with
          | FilesError _ => mret (inl (-1))
          | FileIter files err =>
              '(treeData, count) ← files_ForEach t commit files [] count;
              on_CommitContent t (fun v =>
                CommitContentTransformer.AppendFileContentVertices v treeData) ;;
              match err with
              | Some e => log_Fatal e
              | None => mret (inr count)
              end
          end
      | _ => mret (inr count)
      end;
  match r with
  | inl sentinel => mret sentinel
  | inr count =>
      match o with
      | Some (StructureInfo _) =>
          match Files commit with
          | FilesError e => log_Fatal e
          | FileIter files _ =>
              on_StructureInfo t (fun v =>
                StructureInfoTransformer.AddFileCount v (count_files files 0))
          end
      | _ => mret tt
      end ;;
      mret count
  end.

(** [CommitHistoryTransformer.Export]: the vertices go to the sink under
    [vertexOutput], then the edges under [edgeOutput]; the sink reads the
    edges through their pointers.  The sink itself (package export) is
    outside the files at hand and is taken to accept the rows. *)
Definition CommitHistoryTransformer_Export (v : CommitHistoryTransformer.t)
    : M unit :=
  emit (EvExportRows (CommitHistoryTransformer.vertexOutput v)
          (VertexRows (CommitHistoryTransformer.vertexData v))) ;;
  h ← get_strs;
  emit (EvExportRows (CommitHistoryTransformer.edgeOutput v)
          (EdgeRows (map (edge_value h) (CommitHistoryTransformer.edgeData v)))).

(** Modelled from the spec: the export of the file-inventory transformer,
    whose source is not among the files at hand: "export flushes one
    output". *)
Definition CommitContentTransformer_Export (v : CommitContentTransformer.t)
    : M unit :=
  emit (EvExportRows (CommitContentTransformer.output v)
          (FileRows (CommitContentTransformer.fileData v))).

(** Modelled from the spec: the export of the structure-summary
    transformer, whose source is not among the files at hand: "export
    flushes a single summary output". *)
Definition StructureInfoTransformer_Export (v : StructureInfoTransformer.t)
    : M unit :=
  emit (EvExportRows (StructureInfoTransformer.output v)
          (SummaryRows (StructureInfoTransformer.fileCounts v))).

(** [t.Export()] through the interface. *)
Definition Export (t : ptr) : M unit :=
  o ← deref t;
  emit (EvCall (CallExport t)) ;;
  match o with
  | CommitHistory v => CommitHistoryTransformer_Export v
  | CommitContent v => CommitContentTransformer_Export v
  | StructureInfo v => StructureInfoTransformer_Export v
  | OtherTransformer _ => mret tt
  end.

(** The callback of [refs.ForEach] in [Analyze], run over the commits the
    iterator yields; [count] is the closure's counter. *)
Fixpoint commits_ForEach (t : ptr) (commits : list Commit) (count : Z) : M Z :=
  match commits with
  | [] => mret count
  | commit :: rest =>
      emit (EvCall (CallVisitCommit t commit)) ;;
      n ← visitCommit commit t;
      let count := wrap64 (count + n) in
      (if count =? 0 then mret tt else emit (EvProcessed count)) ;;
      commits_ForEach t rest count
  end.

(** The body of [for i, t := range driller.transformer]. *)
Fixpoint Analyze_loop (repo : Repository) (head : Hash) (n : nat) (i : nat)
    (ts : list ptr) : M unit :=
  match ts with
  | [] => mret tt
  | t :: rest =>
      emit (EvCall (CallLog head)) ;;
      refs ← match Log repo head with
             | inl e => log_Fatal e
             | inr refs => mret refs
             end;
      o ← deref t;
      emit (EvLogRunning (i + 1) n (Transformer_GetName o)) ;;
      commits_ForEach t (fst refs) 0 ;;
      Export t ;;
      Analyze_loop repo head n (S i) rest
  end.

Definition Analyze : M unit :=
  emit (EvProgress "Starting analysis...") ;;
  d ← get_driller;
  emit (EvLogCount (List.length (transformer d))) ;;
  repo ← match repository d with
         | Some r => mret r
         | None => panic nil_dereference
         end;
  emit EvRepoHead ;;
  head ← match Head repo with
         | inl e => log_Fatal e
         | inr h => mret h
         end;
  Analyze_loop repo head (List.length (transformer d)) 0 (transformer d).

(** The body of [for _, t := range driller.transformer] in [GetMetaInfos]. *)
Fixpoint GetMetaInfos_loop (ts : list ptr) (metas : list Meta.t)
    : M (list Meta.t) :=
  match ts with
  | [] => mret metas
  | t :: rest =>
      o ← deref t;
      GetMetaInfos_loop rest (metas ++ GetMetaInfo o)
  end.

(** [make([]index.Meta, len(driller.transformer))] is a slice of that
    length, filled with zero values. *)
Definition GetMetaInfos : M (list Meta.t) :=
  d ← get_driller;
  let metas := replicate (List.length (transformer d)) Meta.zero in
  GetMetaInfos_loop (transformer d) metas.

End Engine.

(** ** Definitions used to state the properties *)

Section Expected.

Variable GetRepositoryName : RepositoryConfig.t -> string.
Variable ShortenHash : string -> string.

(** The state of the commit-history transformer after one visit. *)
Definition visited_history (cfg : RepositoryConfig.t) (commit : Commit)
    (h : Strings) (v : CommitHistoryTransformer.t) : CommitHistoryTransformer.t :=
  CommitHistoryTransformer.mk
    (CommitHistoryTransformer.name v)
    (CommitHistoryTransformer.operationalLevel v)
    (CommitHistoryTransformer.vertexOutput v)
    (CommitHistoryTransformer.edgeOutput v)
    (CommitHistoryTransformer.vertexData v
     ++ [vertex_of (GetRepositoryName cfg)
           (ShortenHash (Hash_String (Commit_Hash commit))) commit])
    (CommitHistoryTransformer.edgeData v
     ++ replicate (List.length (ParentHashes commit))
          (CommitEdge.mk (List.length h) (S (List.length h)))).


(** The row of the file inventory for one file of a commit. *)
Definition file_row (commit : Commit) (file : File) : FileContentVertex.t :=
  FileContentVertex.mk
    (slice_0_6 (Hash_String (Commit_Hash commit)))
    (slice_0_6 (Hash_String (File_Hash file)))
    (File_Name file) (File_Size file).

End Expected.

(** The counts printed by [Analyze] ("Processed %d files."), in order. *)
Definition processed (tr : list Event) : list Z :=
  omap (fun e => match e with EvProcessed n => Some n | _ => None end) tr.

(** The calls recorded in a trace, in order. *)
Definition calls (tr : list Event) : list Call :=
  omap (fun e => match e with EvCall c => Some c | _ => None end) tr.

(** The repository-acquisition calls recorded in a trace. *)
Definition is_acquisition (e : Event) : bool :=
  match e with
  | EvGitClone _ _ | EvTempDir _ | EvGitPlainClone _ _ _ => true
  | _ => false
  end.

Definition acquisitions (tr : list Event) : list Event :=
  List.filter is_acquisition tr.

(** ** The effect of a run on the buffers *)

(** The dynamic type of a transformer. *)
Inductive Kind := KCommitHistory | KCommitContent | KStructureInfo | KOther.

Definition kind_of (o : Transformer) : Kind :=
  match o with
  | CommitHistory _ => KCommitHistory
  | CommitContent _ => KCommitContent
  | StructureInfo _ => KStructureInfo
  | OtherTransformer _ => KOther
  end.

Definition kinds (w : World) : list Kind := kind_of <$> objs w.

(** Every pointer of a buffered edge is an allocated cell. *)
Definition edge_allocated (h : Strings) (e : CommitEdge.t) : Prop :=
  (CommitEdge.CommitHash e < List.length h)%nat
  /\ (CommitEdge.ParentCommitHash e < List.length h)%nat.

Definition allocated_in (h : Strings) (o : Transformer) : Prop :=
  match o with
  | CommitHistory v =>
      Forall (edge_allocated h) (CommitHistoryTransformer.edgeData v)
  | _ => True
  end.

Definition edges_allocated (w : World) : Prop :=
  forall p o, objs w !! p = Some o -> allocated_in (strs w) o.

(** The vertex, edge and file rows a transformer holds, the edges as the
    export sink would read them. *)
Record Dataset := mkDataset {
  vertices : list CommitVertex.t;
  edges : list (string * string);
  files : list FileContentVertex.t
}.

Definition no_rows : Dataset := mkDataset [] [] [].

Definition rows_app (a b : Dataset) : Dataset :=
  mkDataset (vertices a ++ vertices b) (edges a ++ edges b) (files a ++ files b).

Definition rows_of (h : Strings) (o : option Transformer) : Dataset :=
  match o with
  | Some (CommitHistory v) =>
      mkDataset (CommitHistoryTransformer.vertexData v)
        (map (edge_value h) (CommitHistoryTransformer.edgeData v)) []
  | Some (CommitContent v) =>
      mkDataset [] [] (CommitContentTransformer.fileData v)
  | _ => no_rows
  end.

Definition dataset (w : World) (p : ptr) : Dataset :=
  rows_of (strs w) (objs w !! p).

(** Rows for the transformer at [t] only. *)
Definition only (t : ptr) (d : Dataset) (q : ptr) : Dataset :=
  if decide (q = t) then d else no_rows.

(** [effect touched dc d w w']: from [w] to [w'] the engine itself and the
    dynamic types are unchanged, objects outside [touched] are unchanged,
    the string heap has only grown, the calls [dc] have been recorded and
    the transformer at [q] has been appended the rows [d q]. *)
Record effect (touched : list ptr) (dc : list Call) (d : ptr -> Dataset)
    (w w' : World) : Prop := mkEffect {
  eff_driller : driller w' = driller w;
  eff_kinds : kinds w' = kinds w;
  eff_frame : forall q, q ∉ touched -> objs w' !! q = objs w !! q;
  eff_heap : exists k, strs w' = strs w ++ k;
  eff_allocated : edges_allocated w';
  eff_calls : calls (trace w') = calls (trace w) ++ dc;
  eff_dataset : forall q, dataset w' q = rows_app (dataset w q) (d q)
}.

Section Expected_run.

Variable GetRepositoryName : RepositoryConfig.t -> string.
Variable ShortenHash : string -> string.

(** What [visitCommit] returns, from the configuration, the dynamic type of
    the transformer (none for a nil interface) and the commit. *)
Definition visit_outcome (cfg : option RepositoryConfig.t) (k : option Kind)
    (commit : Commit) : Outcome Z :=
  match k with
  | Some KCommitHistory =>
      match cfg with
      | Some _ => Returned 0
      | None => Panicked nil_dereference
      end
  | Some KCommitContent =>
      match Files commit with
      | FilesError _ => Returned (-1)
      | FileIter files None => Returned (count_files files 0)
      | FileIter _ (Some e) => Exited e
      end
  | Some KStructureInfo =>
      match Files commit with
      | FilesError e => Exited e
      | FileIter _ _ => Returned 0
      end
  | _ => Returned 0
  end.

(** The rows [visitCommit] appends. *)
Definition visit_rows (cfg : option RepositoryConfig.t) (k : option Kind)
    (commit : Commit) : Dataset :=
  match k, cfg with
  | Some KCommitHistory, Some c =>
      mkDataset
        [vertex_of (GetRepositoryName c)
           (ShortenHash (Hash_String (Commit_Hash commit))) commit]
        (replicate (List.length (ParentHashes commit))
           (Hash_String (Commit_Hash commit),
            default "" (last (map Hash_String (ParentHashes commit)))))
        []
  | Some KCommitContent, _ =>
      match Files commit with
      | FileIter files _ => mkDataset [] [] (map (file_row commit) files)
      | FilesError _ => no_rows
      end
  | _, _ => no_rows
  end.

Definition visit_returns (cfg : option RepositoryConfig.t) (k : option Kind)
    (commit : Commit) : bool :=
  match visit_outcome cfg k commit with
  | Returned _ => true
  | _ => false
  end.

(** One walk of a transformer over [commits]. *)
Definition walk_returns (cfg : option RepositoryConfig.t) (k : option Kind)
    (commits : list Commit) : bool :=
  forallb (visit_returns cfg k) commits.

Fixpoint walk_rows (cfg : option RepositoryConfig.t) (k : option Kind)
    (commits : list Commit) : Dataset :=
  match commits with
  | [] => no_rows
  | commit :: rest => rows_app (visit_rows cfg k commit) (walk_rows cfg k rest)
  end.

(** The commits one call of [Log] from [head] yields. *)
Definition walk_of (repo : Repository) (head : Hash) : list Commit :=
  match Log repo head with
  | inr refs => fst refs
  | inl _ => []
  end.

(** The loop of [Analyze] over the transformers [ts]. *)
Fixpoint loop_returns (repo : Repository) (head : Hash)
    (cfg : option RepositoryConfig.t) (ks : list Kind) (ts : list ptr) : bool :=
  match ts with
  | [] => true
  | t :: rest =>
      match Log repo head, ks !! t with
      | inr refs, Some k =>
          walk_returns cfg (Some k) (fst refs)
          && loop_returns repo head cfg ks rest
      | _, _ => false
      end
  end.

Fixpoint loop_rows (repo : Repository) (head : Hash)
    (cfg : option RepositoryConfig.t) (ks : list Kind) (ts : list ptr)
    (q : ptr) : Dataset :=
  match ts with
  | [] => no_rows
  | t :: rest =>
      match Log repo head with
      | inr refs =>
          rows_app (only t (walk_rows cfg (ks !! t) (fst refs)) q)
            (loop_rows repo head cfg ks rest q)
      | inl _ => no_rows
      end
  end.

(** The calls of [Analyze] in the order the spec gives: for each transformer
    in registration order, a fresh [Log] from [head], the visit of every
    commit of that walk, then the export. *)
Definition schedule (head : Hash) (commits : list Commit) (ts : list ptr)
    : list Call :=
  concat (map (fun t =>
                 CallLog head :: map (CallVisitCommit t) commits
                 ++ [CallExport t]) ts).

(** The rows that schedule leaves with the transformer at [q]: for each
    entry of the list that is [q], in registration order, the rows of one
    walk over [commits] by a transformer of its dynamic type; nothing for
    the entries that are other transformers. *)
Definition schedule_rows (cfg : option RepositoryConfig.t) (ks : list Kind)
    (commits : list Commit) (ts : list ptr) (q : ptr) : Dataset :=
  fold_right
    (fun t d => rows_app (only t (walk_rows cfg (ks !! t) commits) q) d)
    no_rows ts.

Definition analyze_returns (w : World) : bool :=
  match repository (driller w) with
  | Some repo =>
      match Head repo with
      | inr head =>
          loop_returns repo head (config (driller w)) (kinds w)
            (transformer (driller w))
      | inl _ => false
      end
  | None => false
  end.

Definition analyze_rows (w : World) (q : ptr) : Dataset :=
  match repository (driller w) with
  | Some repo =>
      match Head repo with
      | inr head =>
          loop_rows repo head (config (driller w)) (kinds w)
            (transformer (driller w)) q
      | inl _ => no_rows
      end
  | None => no_rows
  end.

End Expected_run.

(** The same rows, read as sets. *)
Definition same_rows (a b : Dataset) : Prop :=
  (forall x, x ∈ vertices a <-> x ∈ vertices b)
  /\ (forall x, x ∈ edges a <-> x ∈ edges b)
  /\ (forall x, x ∈ files a <-> x ∈ files b).

(** ** Scenarios

    The histories of the spec's scenarios, with stand-ins for the helpers
    that are declared outside the files at hand. *)

Module Scenario.

(** Modelled from the spec: [utils.ShortenHash] is declared outside the
    files at hand.  The spec: a shortened hash is "a fixed-length hex
    prefix of a full content hash"; [visitCommit] itself shortens with
    [[0:6]] in the file-inventory branch. *)
Definition ShortenHash_prefix (n : nat) (hash : string) : string :=
  substring 0 n hash.

Definition ShortenHash : string -> string := ShortenHash_prefix 6.

(** A stand-in for [GetRepositoryName]: the spec only says the name is
    derived from the configuration. *)
Definition GetRepositoryName (c : RepositoryConfig.t) : string :=
  RepositoryConfig.RepositoryUrl c.

(** A stand-in for [GetMetaInfo]: one entry an output. *)
Definition GetMetaInfo (o : Transformer) : list Meta.t :=
  match o with
  | CommitHistory v =>
      [Meta.mk (CommitHistoryTransformer.vertexOutput v) "CommitVertex"
         (CommitHistoryTransformer.operationalLevel v);
       Meta.mk (CommitHistoryTransformer.edgeOutput v) "CommitEdge"
         (CommitHistoryTransformer.operationalLevel v)]
  | CommitContent v =>
      [Meta.mk (CommitContentTransformer.output v) "FileContentVertex"
         (CommitContentTransformer.operationalLevel v)]
  | StructureInfo v =>
      [Meta.mk (StructureInfoTransformer.output v) "StructureInfo"
         (StructureInfoTransformer.operationalLevel v)]
  | OtherTransformer name => [Meta.mk name "" ""]
  end.

Definition hash_C1 : Hash := mkHash "c1c1c1c1c1c1c1c1c1c1c1c1c1c1c1c1c1c1c1c1" eq_refl.
Definition hash_C2 : Hash := mkHash "c2c2c2c2c2c2c2c2c2c2c2c2c2c2c2c2c2c2c2c2" eq_refl.
Definition hash_M : Hash := mkHash "3e3e3e3e3e3e3e3e3e3e3e3e3e3e3e3e3e3e3e3e" eq_refl.
Definition hash_a : Hash := mkHash "a1a1a1a1a1a1a1a1a1a1a1a1a1a1a1a1a1a1a1a1" eq_refl.
Definition hash_b : Hash := mkHash "b2b2b2b2b2b2b2b2b2b2b2b2b2b2b2b2b2b2b2b2" eq_refl.

Definition alice : Signature := mkSignature "alice" "alice@example.org" 1600000000.

Definition a_txt : File := mkFile "a.txt" hash_a 10.
Definition b_txt : File := mkFile "b.txt" hash_b 5.

(** Scenario A: root commit C1 with a.txt, child C2 adding b.txt. *)
Definition C1 : Commit :=
  mkCommit hash_C1 alice alice "add a.txt" [] (FileIter [a_txt] None).
Definition C2 : Commit :=
  mkCommit hash_C2 alice alice "add b.txt" [hash_C1]
    (FileIter [a_txt; b_txt] None).

(** Scenario B: a merge commit with the parents C1 and C2. *)
Definition merge : Commit :=
  mkCommit hash_M alice alice "merge" [hash_C1; hash_C2]
    (FileIter [a_txt; b_txt] None).

(** Scenario C: C2 again, with a tree that cannot be enumerated. *)
Definition C2_broken : Commit :=
  mkCommit hash_C2 alice alice "add b.txt" [hash_C1]
    (FilesError "object not found").

Definition repository_of (commits : list Commit) (head : Hash) : Repository :=
  mkRepository (inr head) (fun _ => inr (commits, None)).

Definition cfg : RepositoryConfig.t :=
  RepositoryConfig.mk "https://example.org/repo.git" false true false.

Definition file_inventory : CommitContentTransformer.t :=
  CommitContentTransformer.mk "CommitContentTransformer" "commit"
    "data/file-content.parquet" [].

(** An engine after [Init] and the registration of the transformers
    [ts], which live at the addresses 0, 1, ... *)
Definition engine (repo : Repository) (ts : list Transformer) : World :=
  mkWorld (mkDisdriller (Some repo) (seq 0 (List.length ts)) (Some cfg))
    [] ts [].

(** Scenario A, with the commit-history transformer at address 0 and the
    file-inventory transformer at address 1. *)
Definition scenario_A : World :=
  engine (repository_of [C2; C1] hash_C2)
    [CommitHistory CommitHistoryTransformer.GetInstance;
     CommitContent file_inventory].

End Scenario.

(** ** Definitions used to state further properties *)

(** What a visit by the file-inventory transformer adds to the counter of
    [Analyze]: the number of files enumerated, or the sentinel -1 when
    [commit.Files()] fails. *)
Definition visit_count (commit : Commit) : Z :=
  match Files commit with
  | FilesError _ => -1
  | FileIter fs _ => Z.of_nat (List.length fs)
  end.

(** The counter after each commit of a walk that starts at [count]. *)
Fixpoint running_counts (count : Z) (commits : list Commit) : list Z :=
  match commits with
  | [] => []
  | commit :: rest =>
      (count + visit_count commit)
      :: running_counts (count + visit_count commit) rest
  end.

Definition total_count (commits : list Commit) : Z :=
  fold_right (fun commit n => visit_count commit + n) 0 commits.

(** The files the trees of [commits] hold, failed enumerations left out. *)
Definition files_enumerated (commits : list Commit) : nat :=
  fold_right
    (fun commit n =>
       match Files commit with
       | FilesError _ => n
       | FileIter fs _ => (List.length fs + n)%nat
       end) 0%nat commits.

(** The commits of [commits] whose [commit.Files()] fails. *)
Definition failed_enumerations (commits : list Commit) : nat :=
  fold_right
    (fun commit n =>
       match Files commit with
       | FilesError _ => S n
       | FileIter _ _ => n
       end) 0%nat commits.

(** The tree of the commit is enumerated to its end, or not at all. *)
Definition no_iteration_error (commit : Commit) : Prop :=
  match Files commit with
  | FileIter _ (Some _) => False
  | _ => True
  end.

(** The datasets handed to the export sink, in order. *)
Definition exports (tr : list Event) : list (string * Rows) :=
  omap (fun e => match e with
                 | EvExportRows target rows => Some (target, rows)
                 | _ => None
                 end) tr.

(** The edges one visit of [commit] adds, as the sink reads them. *)
Definition commit_edges (commit : Commit) : list (string * string) :=
  replicate (List.length (ParentHashes commit))
    (Hash_String (Commit_Hash commit),
     default "" (last (map Hash_String (ParentHashes commit)))).

Definition is_progress (e : Event) : bool :=
  match e with
  | EvProgress _ => true
  | _ => false
  end.

(** An event that is neither a call of the progress callback nor a call
    that acquires a repository. *)
Definition analysis_event (e : Event) : Prop :=
  is_progress e = false /\ is_acquisition e = false.

(** [emits Q m]: whatever the state and the outcome, [m] only adds events
    to the trace, and every event it adds satisfies [Q]. *)
Definition emits (Q : Event -> Prop) {A : Type} (m : M A) : Prop :=
  forall w, exists tr, trace (snd (m w)) = trace w ++ tr /\ Forall Q tr.

(** A history whose walk ends with an error after the commits of scenario
    A, and an environment in which the clone on disk fails. *)
Module Scenario_errors.

Definition broken_walk : Repository :=
  mkRepository (inr Scenario.hash_C2)
    (fun _ => inr ([Scenario.C2; Scenario.C1], Some "object not found")).

Definition no_head : Repository :=
  mkRepository (inl "reference not found") (fun _ => inl "reference not found").

Definition no_log : Repository :=
  mkRepository (inr Scenario.hash_C2) (fun _ => inl "object not found").

Definition clone_fails : Env :=
  mkEnv (fun _ => (None, Some "authentication required"))
    (fun _ => ("/tmp/repo", None))
    (fun _ _ => (None, Some "authentication required")).

Definition temp_dir_fails : Env :=
  mkEnv (fun _ => (None, None)) (fun _ => ("", Some "no space left on device"))
    (fun _ _ => (None, None)).

Definition clone_succeeds : Env :=
  mkEnv
    (fun _ => (Some (Scenario.repository_of [Scenario.C1] Scenario.hash_C1), None))
    (fun _ => ("/tmp/repo", None))
    (fun _ _ => (Some (Scenario.repository_of [Scenario.C1] Scenario.hash_C1), None)).

Definition on_disk : RepositoryConfig.t :=
  RepositoryConfig.mk "https://example.org/repo.git" false false false.

(** C2 with a tree whose enumeration breaks off after a.txt. *)
Definition C2_cut : Commit :=
  mkCommit Scenario.hash_C2 Scenario.alice Scenario.alice "add b.txt"
    [Scenario.hash_C1] (FileIter [Scenario.a_txt] (Some "object not found")).

Definition structure_info : StructureInfoTransformer.t :=
  StructureInfoTransformer.mk "StructureInfoTransformer" "commit"
    "data/structure-info.parquet" [].

(** An engine on which nothing has been called yet. *)
Definition fresh : World := mkWorld (mkDisdriller None [] None) [] [] [].

End Scenario_errors.

(** * Properties *)

(** ** The string heap *)

Lemma load_app_l (h k : Strings) (p : ptr) :
  (p < List.length h)%nat -> load (h ++ k) p = load h p.
Proof. intros Hp. unfold load. by rewrite lookup_app_l. Qed.

Lemma load_alloc (h : Strings) (v : string) :
  load (snd (alloc h v)) (fst (alloc h v)) = v.
Proof. unfold load, alloc. simpl. by rewrite list_lookup_middle. Qed.

Lemma edge_value_app_l (h k : Strings) (e : CommitEdge.t) :
  (CommitEdge.CommitHash e < List.length h)%nat ->
  (CommitEdge.ParentCommitHash e < List.length h)%nat ->
  edge_value (h ++ k) e = edge_value h e.
Proof. intros H1 H2. unfold edge_value. by rewrite !load_app_l. Qed.

(** ** transformer.CommitHistoryTransformer *)

Section CommitHistoryBuffers.

Import CommitHistoryTransformer.

(** The loop of [AppendCommitEdge], run with [commitHash] in the cell before
  the last and [parent] in the last cell: every entry appended holds the
  same two addresses, and the cell of [parent] ends with the last parent
  hash. *)
Lemma AppendCommitEdge_loop_spec (parentHashes : list string) :
forall (transformer : t) (h : Strings) (c x : string),
  AppendCommitEdge_loop (List.length h) (S (List.length h))
    parentHashes transformer (h ++ [c; x])
  = (set_edgeData transformer
       (edgeData transformer
        ++ replicate (List.length parentHashes)
             (CommitEdge.mk (List.length h) (S (List.length h)))),
     h ++ [c; default x (last parentHashes)]).
Proof.
induction parentHashes as [|parent rest IH]; intros transformer h c x.
- simpl. rewrite app_nil_r. by destruct transformer.
- cbn [AppendCommitEdge_loop]. unfold store.
  replace (<[S (List.length h) := parent]> (h ++ [c; x])) with (h ++ [c; parent]).
  2:{ rewrite insert_app_r_alt by lia.
      replace (S (List.length h) - List.length h)%nat with 1%nat by lia.
      reflexivity. }
  rewrite IH. cbn. f_equal.
  + unfold set_edgeData; cbn. f_equal.
    rewrite <- app_assoc. reflexivity.
  + f_equal. f_equal. f_equal.
    destruct rest as [|r rest']; [reflexivity|].
    rewrite last_cons_cons.
    destruct (last (r :: rest')) eqn:E; [reflexivity|].
    by apply last_None in E.
Qed.

Lemma AppendCommitEdge_spec (transformer : t) (commitHash : string)
  (parentHashes : list string) (h : Strings) :
AppendCommitEdge transformer commitHash parentHashes h
= (set_edgeData transformer
     (edgeData transformer
      ++ replicate (List.length parentHashes)
           (CommitEdge.mk (List.length h) (S (List.length h)))),
   h ++ [commitHash; default "" (last parentHashes)]).
Proof.
unfold AppendCommitEdge, alloc.
replace (List.length (h ++ [commitHash])) with (S (List.length h))
  by (rewrite length_app; simpl; lia).
rewrite <- app_assoc. simpl.
apply AppendCommitEdge_loop_spec.
Qed.

(** [AppendCommitVertex] adds the vertex at the end and touches nothing
  else. *)
Lemma AppendCommitVertex_spec (transformer : t) (commit : CommitVertex.t) :
vertexData (AppendCommitVertex transformer commit)
  = vertexData transformer ++ [commit]
/\ edgeData (AppendCommitVertex transformer commit) = edgeData transformer.
Proof. split; reflexivity. Qed.

(** X1.  [AppendCommitEdge] keeps the entries buffered before, and their values;
  it adds one entry a parent hash, each with [commitHash] behind its first
  pointer; the vertices are untouched. *)
Lemma AppendCommitEdge_appends (transformer : t) (commitHash : string)
  (parentHashes : list string) (h : Strings) :
let '(transformer', h') :=
  AppendCommitEdge transformer commitHash parentHashes h in
vertexData transformer' = vertexData transformer
/\ (exists new,
      edgeData transformer' = edgeData transformer ++ new
      /\ List.length new = List.length parentHashes
      /\ Forall (fun e => load h' (CommitEdge.CommitHash e) = commitHash) new)
/\ (forall p, (p < List.length h)%nat -> load h' p = load h p).
Proof.
rewrite AppendCommitEdge_spec. split; [reflexivity|]. split.
- eexists. split; [reflexivity|]. split.
  + apply length_replicate.
  + apply Forall_replicate. cbn. unfold load.
    by rewrite list_lookup_middle.
- intros p Hp. by apply load_app_l.
Qed.

(** X2.  The values of the entries one call appends: every one of them reads
  the last parent hash, the final content of the shared cell. *)
Lemma AppendCommitEdge_values (transformer : t) (commitHash : string)
  (parentHashes : list string) (h : Strings) :
let '(transformer', h') :=
  AppendCommitEdge transformer commitHash parentHashes h in
map (edge_value h') (drop (List.length (edgeData transformer))
                          (edgeData transformer'))
= replicate (List.length parentHashes)
    (commitHash, default "" (last parentHashes)).
Proof.
rewrite AppendCommitEdge_spec. cbn.
rewrite drop_app_length.
induction (List.length parentHashes) as [|k IH]; [reflexivity|].
cbn [replicate map]. rewrite IH. f_equal.
unfold edge_value, load. cbn.
rewrite list_lookup_middle by reflexivity.
rewrite lookup_app_r by lia.
replace (S (List.length h) - List.length h)%nat with 1%nat by lia.
reflexivity.
Qed.

(** C10.  [AppendCommitEdge] on a fresh transformer with the hash of the
    merge commit of scenario B and the hashes of its two parents, C1 and C2:
    two entries are buffered, both read the commit hash through
    [CommitHash], and both read the hash of C2 through [ParentCommitHash].
    The entry built for C1 does not carry the hash of C1, so the new entries
    are not the parent hashes in order. *)
Theorem AppendCommitEdge_merge_reads_last_parent :
  let commitHash := Hash_String Scenario.hash_M in
  let parentHashes :=
    [Hash_String Scenario.hash_C1; Hash_String Scenario.hash_C2] in
  let '(transformer', h') :=
    AppendCommitEdge GetInstance commitHash parentHashes [] in
  map (edge_value h') (edgeData transformer')
  = [(commitHash, Hash_String Scenario.hash_C2);
     (commitHash, Hash_String Scenario.hash_C2)]
  /\ map (edge_value h') (edgeData transformer')
     <> map (fun parent => (commitHash, parent)) parentHashes.
Proof. cbn. split; [reflexivity|discriminate]. Qed.

End CommitHistoryBuffers.

(** ** visitCommit *)

Ltac run :=
  cbv [mbind M_bind mret M_ret emit panic exit log_Panic log_Fatal
       get_driller set_driller get_strs dynamic deref
       on_CommitHistory on_CommitContent on_StructureInfo
       config_GetRepositoryName];
  cbn [driller strs objs trace repository transformer config fst snd].

Section VisitCommit.

Variable GetRepositoryName : RepositoryConfig.t -> string.
Variable ShortenHash : string -> string.

Abbreviation visitCommit := (visitCommit GetRepositoryName ShortenHash).
Abbreviation visited_history := (visited_history GetRepositoryName ShortenHash).

Lemma visitCommit_CommitHistory (commit : Commit) (t : ptr) (w : World)
    (v : CommitHistoryTransformer.t) (cfg : RepositoryConfig.t) :
  objs w !! t = Some (CommitHistory v) ->
  config (driller w) = Some cfg ->
  visitCommit commit t w
  = (Returned 0,
     mkWorld (driller w)
       (strs w ++ [Hash_String (Commit_Hash commit);
                   default "" (last (map Hash_String (ParentHashes commit)))])
       (<[t := CommitHistory (visited_history cfg commit (strs w) v)]> (objs w))
       (trace w)).
Proof.
  intros Ht Hc. unfold visitCommit. run. rewrite Ht, Hc. run.
  rewrite Ht. run.
  rewrite list_lookup_insert_eq by (by eapply lookup_lt_Some).
  rewrite AppendCommitEdge_spec. run.
  rewrite list_insert_insert_eq, length_map.
  reflexivity.
Qed.

(** *** The file counter *)

Lemma wrap64_idem (z : Z) : wrap64 (wrap64 z + 1) = wrap64 (z + 1).
Proof.
  unfold wrap64.
  replace ((z + 2 ^ 63) mod 2 ^ 64 - 2 ^ 63 + 1 + 2 ^ 63)
    with ((z + 2 ^ 63) mod 2 ^ 64 + 1) by lia.
  replace (z + 1 + 2 ^ 63) with ((z + 2 ^ 63) + 1) by lia.
  by rewrite Zplus_mod_idemp_l.
Qed.

Lemma wrap64_small (z : Z) : - 2 ^ 63 <= z < 2 ^ 63 -> wrap64 z = z.
Proof. intros Hz. unfold wrap64. rewrite Z.mod_small; lia. Qed.

Lemma count_files_wrap (files : list File) :
  forall z, count_files files (wrap64 z)
            = wrap64 (z + Z.of_nat (List.length files)).
Proof.
  induction files as [|file rest IH]; intros z.
  - cbn. by rewrite Z.add_0_r.
  - cbn [count_files List.length]. rewrite wrap64_idem, IH. f_equal. lia.
Qed.

Lemma count_files_length (files : list File) :
  Z.of_nat (List.length files) < 2 ^ 63 ->
  count_files files 0 = Z.of_nat (List.length files).
Proof.
  intros Hn. change 0 with (wrap64 0) at 1.
  rewrite count_files_wrap. apply wrap64_small. lia.
Qed.

(** *** The file-inventory branch *)

Lemma files_ForEach_spec (v : ptr) (commit : Commit) (files : list File) :
  forall treeData count w,
    files_ForEach v commit files treeData count w
    = (Returned (treeData ++ map (file_row commit) files,
                 count_files files count),
       mkWorld (driller w) (strs w) (objs w)
         (trace w ++ map (EvCopyFile v) files)).
Proof.
  induction files as [|file rest IH]; intros treeData count w.
  - cbn. rewrite !app_nil_r. by destruct w.
  - cbn [files_ForEach]. run. rewrite IH. cbn.
    rewrite <- !app_assoc. reflexivity.
Qed.

Lemma visitCommit_CommitContent (commit : Commit) (t : ptr) (w : World)
    (v : CommitContentTransformer.t) (files : list File) :
  objs w !! t = Some (CommitContent v) ->
  Files commit = FileIter files None ->
  visitCommit commit t w
  = (Returned (count_files files 0),
     mkWorld (driller w) (strs w)
       (<[t := CommitContent
                 (CommitContentTransformer.AppendFileContentVertices v
                    (map (file_row commit) files))]> (objs w))
       (trace w ++ map (EvCopyFile t) files)).
Proof.
  intros Ht Hf. unfold visitCommit. run. rewrite Ht, Hf. run.
  rewrite files_ForEach_spec. run. rewrite Ht. reflexivity.
Qed.

Lemma visitCommit_CommitContent_Files_error (commit : Commit) (t : ptr)
    (w : World) (v : CommitContentTransformer.t) (err : string) :
  objs w !! t = Some (CommitContent v) ->
  Files commit = FilesError err ->
  visitCommit commit t w = (Returned (-1), w).
Proof.
  intros Ht Hf. unfold visitCommit. run. rewrite Ht, Hf. reflexivity.
Qed.

Lemma visitCommit_CommitContent_ForEach_error (commit : Commit) (t : ptr)
    (w : World) (v : CommitContentTransformer.t) (files : list File)
    (err : string) :
  objs w !! t = Some (CommitContent v) ->
  Files commit = FileIter files (Some err) ->
  visitCommit commit t w
  = (Exited err,
     mkWorld (driller w) (strs w)
       (<[t := CommitContent
                 (CommitContentTransformer.AppendFileContentVertices v
                    (map (file_row commit) files))]> (objs w))
       (trace w ++ map (EvCopyFile t) files ++ [EvLog err])).
Proof.
  intros Ht Hf. unfold visitCommit. run. rewrite Ht, Hf. run.
  rewrite files_ForEach_spec. run. rewrite Ht. cbn.
  by rewrite <- app_assoc.
Qed.

(** *** The structure branch and the rest *)

Lemma visitCommit_StructureInfo (commit : Commit) (t : ptr) (w : World)
    (v : StructureInfoTransformer.t) (files : list File) (err : option string) :
  objs w !! t = Some (StructureInfo v) ->
  Files commit = FileIter files err ->
  visitCommit commit t w
  = (Returned 0,
     mkWorld (driller w) (strs w)
       (<[t := StructureInfo
                 (StructureInfoTransformer.AddFileCount v
                    (count_files files 0))]> (objs w))
       (trace w)).
Proof.
  intros Ht Hf. unfold visitCommit. run. rewrite Ht, Hf. run.
  rewrite Ht. reflexivity.
Qed.

Lemma visitCommit_StructureInfo_Files_error (commit : Commit) (t : ptr)
    (w : World) (v : StructureInfoTransformer.t) (err : string) :
  objs w !! t = Some (StructureInfo v) ->
  Files commit = FilesError err ->
  visitCommit commit t w
  = (Exited err,
     mkWorld (driller w) (strs w) (objs w) (trace w ++ [EvLog err])).
Proof.
  intros Ht Hf. unfold visitCommit. run. rewrite Ht, Hf. reflexivity.
Qed.

Lemma visitCommit_OtherTransformer (commit : Commit) (t : ptr) (w : World)
    (name : string) :
  objs w !! t = Some (OtherTransformer name) ->
  visitCommit commit t w = (Returned 0, w).
Proof. intros Ht. unfold visitCommit. run. rewrite Ht. reflexivity. Qed.

Lemma visitCommit_nil (commit : Commit) (t : ptr) (w : World) :
  objs w !! t = None ->
  visitCommit commit t w = (Returned 0, w).
Proof. intros Ht. unfold visitCommit. run. rewrite Ht. reflexivity. Qed.

(** What holds of every commit dispatched to a commit-history transformer:
    the visit returns 0 and appends exactly one vertex, the one built from
    the commit, and as many new edges as the commit has parents (none for a
    root commit), each reading the commit's hash through its [CommitHash].
    What the new edges read through [ParentCommitHash] is not said here. *)
Theorem visitCommit_one_vertex_one_edge_per_parent (commit : Commit) (t : ptr)
    (w : World) (v : CommitHistoryTransformer.t) (cfg : RepositoryConfig.t) :
  objs w !! t = Some (CommitHistory v) ->
  config (driller w) = Some cfg ->
  exists w' v' new,
    visitCommit commit t w = (Returned 0, w')
    /\ objs w' !! t = Some (CommitHistory v')
    /\ CommitHistoryTransformer.vertexData v'
       = CommitHistoryTransformer.vertexData v
         ++ [vertex_of (GetRepositoryName cfg)
               (ShortenHash (Hash_String (Commit_Hash commit))) commit]
    /\ CommitHistoryTransformer.edgeData v'
       = CommitHistoryTransformer.edgeData v ++ new
    /\ List.length new = List.length (ParentHashes commit)
    /\ (ParentHashes commit = [] -> new = [])
    /\ Forall (fun e => load (strs w') (CommitEdge.CommitHash e)
                        = Hash_String (Commit_Hash commit)) new.
Proof.
  intros Ht Hc.
  eexists _, _, _. split; [by apply visitCommit_CommitHistory|].
  cbn [objs strs]. split.
  { apply list_lookup_insert_eq. by eapply lookup_lt_Some. }
  cbn. split; [reflexivity|]. split; [reflexivity|].
  split; [apply length_replicate|].
  split; [by intros ->|].
  apply Forall_replicate. cbn. unfold load.
  by rewrite list_lookup_middle.
Qed.

(** X25.  What does hold between the two hashes: the vertex carries the
    shortened form of the hash the edges of the same visit read. *)
Lemma visitCommit_vertex_hash_shortens_edge_hash (commit : Commit) (t : ptr)
    (w : World) (v : CommitHistoryTransformer.t) (cfg : RepositoryConfig.t) :
  objs w !! t = Some (CommitHistory v) ->
  config (driller w) = Some cfg ->
  let w' := snd (visitCommit commit t w) in
  exists v',
    objs w' !! t = Some (CommitHistory v')
    /\ Forall (fun e =>
                 CommitVertex.CommitHash <$> last (CommitHistoryTransformer.vertexData v')
                 = Some (ShortenHash (load (strs w') (CommitEdge.CommitHash e))))
         (drop (List.length (CommitHistoryTransformer.edgeData v))
            (CommitHistoryTransformer.edgeData v')).
Proof.
  intros Ht Hc. cbn zeta.
  rewrite (visitCommit_CommitHistory _ _ _ _ _ Ht Hc). cbn [snd objs strs].
  eexists. split.
  { apply list_lookup_insert_eq. by eapply lookup_lt_Some. }
  cbn. rewrite drop_app_length, last_snoc. cbn.
  apply Forall_replicate. cbn. unfold load.
  by rewrite list_lookup_middle.
Qed.

(** C5.  A commit whose tree enumeration succeeds, dispatched to the
    file-inventory transformer: [visitCommit] builds one row a file of the
    tree, in the order of the enumeration, with the 6-character prefixes of
    the commit's and of the file's hash, the file's name and its size, and
    hands these rows in one call to [AppendFileContentVertices], which
    appends them to the buffer; the count returned is the number of files
    (a Go [int], so below 2^63). *)
Theorem visitCommit_one_row_per_file (commit : Commit) (t : ptr) (w : World)
    (v : CommitContentTransformer.t) (files : list File) :
  objs w !! t = Some (CommitContent v) ->
  Files commit = FileIter files None ->
  Z.of_nat (List.length files) < 2 ^ 63 ->
  exists w' rows,
    visitCommit commit t w = (Returned (Z.of_nat (List.length files)), w')
    /\ rows = map (fun file =>
                     FileContentVertex.mk
                       (slice_0_6 (Hash_String (Commit_Hash commit)))
                       (slice_0_6 (Hash_String (File_Hash file)))
                       (File_Name file) (File_Size file)) files
    /\ objs w' !! t
       = Some (CommitContent
                 (CommitContentTransformer.AppendFileContentVertices v rows))
    /\ CommitContentTransformer.fileData
         (CommitContentTransformer.AppendFileContentVertices v rows)
       = CommitContentTransformer.fileData v ++ rows.
Proof.
  intros Ht Hf Hn.
  eexists _, _. split.
  { rewrite <- (count_files_length files Hn).
    by eapply visitCommit_CommitContent. }
  split; [reflexivity|].
  cbn [objs]. split; [|reflexivity].
  apply list_lookup_insert_eq. by eapply lookup_lt_Some.
Qed.

End VisitCommit.

Lemma visitCommit_one_vertex_one_edge_per_parent_witness :
  exists w' v' new,
    visitCommit Scenario.GetRepositoryName Scenario.ShortenHash Scenario.merge 0%nat
      (Scenario.engine (Scenario.repository_of [Scenario.merge] Scenario.hash_M)
         [CommitHistory CommitHistoryTransformer.GetInstance])
    = (Returned 0, w')
    /\ objs w' !! 0%nat = Some (CommitHistory v')
    /\ CommitHistoryTransformer.vertexData v'
       = [] ++ [vertex_of (Scenario.GetRepositoryName Scenario.cfg)
                  (Scenario.ShortenHash (Hash_String Scenario.hash_M))
                  Scenario.merge]
    /\ CommitHistoryTransformer.edgeData v' = [] ++ new
    /\ List.length new = 2%nat
    /\ (ParentHashes Scenario.merge = [] -> new = [])
    /\ Forall (fun e => load (strs w') (CommitEdge.CommitHash e)
                        = Hash_String Scenario.hash_M) new.
Proof.
  apply (visitCommit_one_vertex_one_edge_per_parent
           Scenario.GetRepositoryName Scenario.ShortenHash Scenario.merge 0%nat
           (Scenario.engine (Scenario.repository_of [Scenario.merge] Scenario.hash_M)
              [CommitHistory CommitHistoryTransformer.GetInstance])
           CommitHistoryTransformer.GetInstance Scenario.cfg);
    reflexivity.
Defined.

Lemma visitCommit_one_row_per_file_witness :
  exists w' rows,
    visitCommit Scenario.GetRepositoryName Scenario.ShortenHash Scenario.C2 0%nat
      (Scenario.engine
         (Scenario.repository_of [Scenario.C2; Scenario.C1] Scenario.hash_C2)
         [CommitContent Scenario.file_inventory])
    = (Returned 2, w')
    /\ rows = [FileContentVertex.mk "c2c2c2" "a1a1a1" "a.txt" 10;
               FileContentVertex.mk "c2c2c2" "b2b2b2" "b.txt" 5]
    /\ objs w' !! 0%nat
       = Some (CommitContent
                 (CommitContentTransformer.AppendFileContentVertices
                    Scenario.file_inventory rows))
    /\ CommitContentTransformer.fileData
         (CommitContentTransformer.AppendFileContentVertices
            Scenario.file_inventory rows)
       = [] ++ rows.
Proof.
  apply (visitCommit_one_row_per_file
           Scenario.GetRepositoryName Scenario.ShortenHash Scenario.C2 0%nat
           (Scenario.engine
              (Scenario.repository_of [Scenario.C2; Scenario.C1] Scenario.hash_C2)
              [CommitContent Scenario.file_inventory])
           Scenario.file_inventory [Scenario.a_txt; Scenario.b_txt]);
    [reflexivity | reflexivity | cbn; lia].
Defined.

(** C1.  The merge commit of scenario B, with the parents C1 and C2,
    visited by a fresh commit-history transformer: the visit returns 0 and
    buffers one vertex and two edges, both reading the hash of the merge
    commit through [CommitHash] and both reading the hash of C2 through
    [ParentCommitHash].  There is not one edge a parent hash: the parent
    hashes are those of C1 and C2, the hash of C1 is read through no edge,
    and the hash of C2 through two. *)
Theorem visitCommit_merge_has_no_edge_for_first_parent :
  exists w' v',
    visitCommit Scenario.GetRepositoryName Scenario.ShortenHash
      Scenario.merge 0%nat
      (Scenario.engine
         (Scenario.repository_of [Scenario.merge] Scenario.hash_M)
         [CommitHistory CommitHistoryTransformer.GetInstance])
    = (Returned 0, w')
    /\ objs w' !! 0%nat = Some (CommitHistory v')
    /\ List.length (CommitHistoryTransformer.vertexData v') = 1%nat
    /\ map Hash_String (ParentHashes Scenario.merge)
       = [Hash_String Scenario.hash_C1; Hash_String Scenario.hash_C2]
    /\ map (edge_value (strs w')) (CommitHistoryTransformer.edgeData v')
       = [(Hash_String Scenario.hash_M, Hash_String Scenario.hash_C2);
          (Hash_String Scenario.hash_M, Hash_String Scenario.hash_C2)]
    /\ map (edge_value (strs w')) (CommitHistoryTransformer.edgeData v')
       <> map (fun parent => (Hash_String (Commit_Hash Scenario.merge), parent))
            (map Hash_String (ParentHashes Scenario.merge))
    /\ ~ In (Hash_String Scenario.hash_C1)
           (map (fun e => snd (edge_value (strs w') e))
              (CommitHistoryTransformer.edgeData v')).
Proof.
  eexists _, _. split; [reflexivity|]. split; [reflexivity|].
  split; [reflexivity|]. split; [reflexivity|]. split; [reflexivity|].
  split; [discriminate|].
  cbn. intros [H|[H|[]]]; discriminate H.
Qed.

(** C2.  The merge commit of scenario B, visited by a commit-history
    transformer that shortens to 6 characters: the vertex carries the
    shortened hash "3e3e3e", and both edges read the full 40-character hash
    through [CommitHash].  No edge has the commit hash of the vertex. *)
Theorem visitCommit_edge_hash_is_not_shortened :
  let w' :=
    snd (visitCommit Scenario.GetRepositoryName Scenario.ShortenHash
           Scenario.merge 0%nat
           (Scenario.engine
              (Scenario.repository_of [Scenario.merge] Scenario.hash_M)
              [CommitHistory CommitHistoryTransformer.GetInstance])) in
  exists v',
    objs w' !! 0%nat = Some (CommitHistory v')
    /\ map CommitVertex.CommitHash (CommitHistoryTransformer.vertexData v')
       = ["3e3e3e"]
    /\ map (fun e => fst (edge_value (strs w') e))
         (CommitHistoryTransformer.edgeData v')
       = [Hash_String Scenario.hash_M; Hash_String Scenario.hash_M]
    /\ Forall (fun e => ~ In (fst (edge_value (strs w') e))
                          (map CommitVertex.CommitHash
                             (CommitHistoryTransformer.vertexData v')))
         (CommitHistoryTransformer.edgeData v').
Proof.
  eexists. split; [reflexivity|]. split; [reflexivity|].
  split; [reflexivity|].
  repeat constructor; cbn; intros [H|[]]; discriminate H.
Qed.

Lemma substring_0_length (n : nat) :
  forall s, String.length (substring 0 n s) = Nat.min n (String.length s).
Proof.
  induction n as [|n IH]; intros [|a s]; cbn; try reflexivity.
  by rewrite IH.
Qed.

(** Whatever the length of the prefix, below the 40 characters of a hash,
    the shortened hash of the vertex is not the hash of the edges. *)
Lemma ShortenHash_prefix_differs (n : nat) (h : Hash) :
  (n < 40)%nat -> Scenario.ShortenHash_prefix n (Hash_String h) <> Hash_String h.
Proof.
  intros Hn Heq. apply (f_equal String.length) in Heq.
  unfold Scenario.ShortenHash_prefix, Hash_String in Heq.
  rewrite substring_0_length, hex_length in Heq. lia.
Qed.

(** ** Init *)

Section InitProperties.

Variable GetRepositoryName : RepositoryConfig.t -> string.

(** C8.  With [isLocal] set, whatever the other fields, the environment and
    the state: [Init] logs that local repositories are not supported and
    panics; only the configuration has been stored, no repository call is
    in the trace and the repository handle is the one from before. *)
Theorem Init_local_fails_fast (env : Env) (url : string)
    (inMemory printLogs : bool) (w : World) :
  let cfg := RepositoryConfig.mk url true inMemory printLogs in
  Init GetRepositoryName env cfg w
  = (Panicked local_not_supported,
     mkWorld
       (mkDisdriller (repository (driller w)) (transformer (driller w)) (Some cfg))
       (strs w) (objs w) (trace w ++ [EvLog local_not_supported]))
  /\ acquisitions (trace (snd (Init GetRepositoryName env cfg w))) = acquisitions (trace w).
Proof.
  cbn zeta. split; [reflexivity|].
  unfold Init. run. cbn. unfold acquisitions.
  rewrite List.filter_app. cbn. by rewrite app_nil_r.
Qed.

(** The in-memory path: a failing [git.Clone] is fatal. *)
Lemma Init_in_memory_clone_failure_is_fatal (env : Env) (url : string)
    (printLogs : bool) (w : World) (r : option Repository) (err : string) :
  git_Clone env url = (r, Some err) ->
  fst (Init GetRepositoryName env (RepositoryConfig.mk url false true printLogs) w) = Exited err.
Proof. intros H. unfold Init. run. cbn. rewrite H. reflexivity. Qed.

(** C6.  The on-disk path, with a temporary directory [dir] and a
    [git.PlainClone] that fails with [err] and no repository: [Init] does
    not stop, it returns with a nil repository handle in the engine. *)
Theorem Init_on_disk_clone_failure_returns (url dir err : string)
    (printLogs : bool) (w : World) :
  let cfg := RepositoryConfig.mk url false false printLogs in
  let env :=
    mkEnv (fun _ => (None, None)) (fun _ => (dir, None))
      (fun _ _ => (None, Some err)) in
  Init GetRepositoryName env cfg w
  = (Returned tt,
     mkWorld (mkDisdriller None (transformer (driller w)) (Some cfg))
       (strs w) (objs w)
       (trace w ++ [EvTempDir (GetRepositoryName cfg); EvLogCloningTo dir;
                    EvGitPlainClone dir url printLogs])).
Proof.
  cbn zeta. unfold Init. run. cbn. by rewrite <- !app_assoc.
Qed.

(** X26.  In general the on-disk path stores whatever [git.PlainClone] returned,
    its error unread. *)
Lemma Init_on_disk_ignores_clone_error (env : Env) (url dir : string)
    (printLogs : bool) (w : World) (r : option Repository) (err : option string) :
  let cfg := RepositoryConfig.mk url false false printLogs in
  ioutil_TempDir env (GetRepositoryName cfg) = (dir, None) ->
  git_PlainClone env dir url = (r, err) ->
  fst (Init GetRepositoryName env cfg w) = Returned tt
  /\ repository (driller (snd (Init GetRepositoryName env cfg w))) = r.
Proof.
  cbn zeta. intros H1 H2. unfold Init. run. cbn. rewrite H1. run.
  rewrite H2. split; reflexivity.
Qed.

End InitProperties.

(** ** GetMetaInfos *)

Section MetaInfos.

Variable GetMetaInfo : Transformer -> list Meta.t.

Lemma GetMetaInfos_loop_spec (ts : list ptr) :
  forall (os : list Transformer) (metas : list Meta.t) (w : World),
    Forall2 (fun t o => objs w !! t = Some o) ts os ->
    GetMetaInfos_loop GetMetaInfo ts metas w
    = (Returned (metas ++ concat (map GetMetaInfo os)), w).
Proof.
  induction ts as [|t rest IH]; intros os metas w Hts.
  - apply Forall2_nil_inv_l in Hts as ->. cbn. by rewrite app_nil_r.
  - apply Forall2_cons_inv_l in Hts as (o & os' & Ho & Hrest & ->).
    cbn [GetMetaInfos_loop]. run. rewrite Ho. run.
    rewrite (IH os' _ _ Hrest). cbn. by rewrite <- app_assoc.
Qed.

(** What [GetMetaInfos] returns for the registered transformers [os]: as
    many zero-valued entries as there are transformers, and after them the
    entries of the transformers in registration order. *)
Lemma GetMetaInfos_spec (os : list Transformer) (w : World) :
  Forall2 (fun t o => objs w !! t = Some o) (transformer (driller w)) os ->
  GetMetaInfos GetMetaInfo w
  = (Returned (replicate (List.length os) Meta.zero
               ++ concat (map GetMetaInfo os)), w).
Proof.
  intros Hts. unfold GetMetaInfos. run.
  rewrite (GetMetaInfos_loop_spec _ os _ _ Hts).
  by rewrite (Forall2_length _ _ _ Hts).
Qed.

Lemma GetMetaInfos_is_not_the_concatenation (os : list Transformer) (w : World) :
  Forall2 (fun t o => objs w !! t = Some o) (transformer (driller w)) os ->
  os <> [] ->
  fst (GetMetaInfos GetMetaInfo w) <> Returned (concat (map GetMetaInfo os)).
Proof.
  intros Hts Hne. rewrite (GetMetaInfos_spec os w Hts). cbn. intros [= H].
  apply (f_equal (@List.length _)) in H.
  rewrite length_app, length_replicate in H.
  destruct os; [done|]. cbn in H. lia.
Qed.

End MetaInfos.

(** C4.  An engine with the commit-history transformer registered:
    [GetMetaInfos] returns a zero-valued entry followed by the two entries
    of the transformer, which is not the concatenation of the transformers'
    entries. *)
Theorem GetMetaInfos_starts_with_zero_values :
  let w :=
    Scenario.engine (Scenario.repository_of [Scenario.C1] Scenario.hash_C1)
      [CommitHistory CommitHistoryTransformer.GetInstance] in
  fst (GetMetaInfos Scenario.GetMetaInfo w)
  = Returned [Meta.zero;
              Meta.mk "data/commit-vertices.parquet" "CommitVertex" "commit";
              Meta.mk "data/commit-edges.parquet" "CommitEdge" "commit"]
  /\ fst (GetMetaInfos Scenario.GetMetaInfo w)
     <> Returned (concat (map Scenario.GetMetaInfo
                            [CommitHistory CommitHistoryTransformer.GetInstance])).
Proof. cbn zeta. split; [reflexivity|]. cbn. discriminate. Qed.

(** ** Analyze: the sentinel of a failed tree enumeration *)

(** C3.  Scenario C with the file-inventory transformer: the walk yields
    the merge commit (2 files), then C2 whose tree cannot be enumerated,
    then C1 (1 file).  The run returns and the rows of the other two commits
    are buffered, 3 in all; but the count printed goes 2, 1, 2: the sentinel
    -1 of the failing commit has been added to it. *)
Theorem Analyze_adds_the_sentinel_to_the_count :
  let w :=
    Scenario.engine
      (Scenario.repository_of
         [Scenario.merge; Scenario.C2_broken; Scenario.C1] Scenario.hash_M)
      [CommitContent Scenario.file_inventory] in
  let r := Analyze Scenario.GetRepositoryName Scenario.ShortenHash w in
  fst r = Returned tt
  /\ processed (trace (snd r)) = [2; 1; 2]
  /\ exists v',
       objs (snd r) !! 0%nat = Some (CommitContent v')
       /\ CommitContentTransformer.fileData v'
          = [file_row Scenario.merge Scenario.a_txt;
             file_row Scenario.merge Scenario.b_txt;
             file_row Scenario.C1 Scenario.a_txt].
Proof.
  cbn zeta. split; [reflexivity|]. split; [reflexivity|].
  eexists. split; reflexivity.
Qed.

(** ** The effect of a run on the buffers *)

Lemma rows_app_no_rows_r (d : Dataset) : rows_app d no_rows = d.
Proof. destruct d. unfold rows_app. cbn. by rewrite !app_nil_r. Qed.

Lemma rows_app_no_rows_l (d : Dataset) : rows_app no_rows d = d.
Proof. by destruct d. Qed.

Lemma rows_app_assoc (a b c : Dataset) :
  rows_app (rows_app a b) c = rows_app a (rows_app b c).
Proof. unfold rows_app. cbn. by rewrite <- !app_assoc. Qed.

Lemma only_rows_app (t : ptr) (a b : Dataset) (q : ptr) :
  rows_app (only t a q) (only t b q) = only t (rows_app a b) q.
Proof. unfold only. by destruct (decide (q = t)). Qed.

Lemma calls_app (tr1 tr2 : list Event) :
  calls (tr1 ++ tr2) = calls tr1 ++ calls tr2.
Proof. apply omap_app. Qed.

Lemma edge_allocated_app (h k : Strings) (e : CommitEdge.t) :
  edge_allocated h e -> edge_allocated (h ++ k) e.
Proof. unfold edge_allocated. rewrite length_app. lia. Qed.

Lemma allocated_in_app (h k : Strings) (o : Transformer) :
  allocated_in h o -> allocated_in (h ++ k) o.
Proof.
  destruct o; cbn; try done.
  intros Hall. eapply Forall_impl; [exact Hall|].
  intros e. apply edge_allocated_app.
Qed.

Lemma rows_of_app (h k : Strings) (o : Transformer) :
  allocated_in h o -> rows_of (h ++ k) (Some o) = rows_of h (Some o).
Proof.
  destruct o as [v| | |]; cbn; try done.
  intros Hall. f_equal. apply map_ext_Forall.
  eapply Forall_impl; [exact Hall|].
  intros e [H1 H2]. by apply edge_value_app_l.
Qed.

Lemma effect_ext (touched touched' : list ptr) (dc dc' : list Call)
    (d d' : ptr -> Dataset) (w w' : World) :
  touched ⊆ touched' ->
  dc = dc' ->
  (forall q, d q = d' q) ->
  effect touched dc d w w' -> effect touched' dc' d' w w'.
Proof.
  intros Hsub <- Hd [H1 H2 H3 H4 H5 H6 H7].
  split; try done.
  - intros q Hq. apply H3. intros Hin. apply Hq. by apply Hsub.
  - intros q. by rewrite <- Hd.
Qed.

Lemma effect_trans (t1 t2 : list ptr) (c1 c2 : list Call)
    (d1 d2 : ptr -> Dataset) (w w' w'' : World) :
  effect t1 c1 d1 w w' -> effect t2 c2 d2 w' w'' ->
  effect (t1 ++ t2) (c1 ++ c2) (fun q => rows_app (d1 q) (d2 q)) w w''.
Proof.
  intros [A1 A2 A3 A4 A5 A6 A7] [B1 B2 B3 B4 B5 B6 B7].
  split.
  - congruence.
  - congruence.
  - intros q Hq. rewrite B3, A3; [done| |];
      intros Hin; apply Hq; apply elem_of_app; auto.
  - destruct A4 as [k1 A4], B4 as [k2 B4]. exists (k1 ++ k2).
    by rewrite B4, A4, <- app_assoc.
  - done.
  - by rewrite B6, A6, <- app_assoc.
  - intros q. by rewrite B7, A7, rows_app_assoc.
Qed.

(** Events only: nothing but the trace changes. *)
Lemma effect_trace (w : World) (tr : list Event) :
  edges_allocated w ->
  effect [] (calls tr) (fun _ => no_rows) w
    (mkWorld (driller w) (strs w) (objs w) (trace w ++ tr)).
Proof.
  intros Hall. split; cbn; try done.
  - exists []. by rewrite app_nil_r.
  - apply calls_app.
  - intros q. by rewrite rows_app_no_rows_r.
Qed.

Lemma effect_refl (w : World) :
  edges_allocated w -> effect [] [] (fun _ => no_rows) w w.
Proof.
  intros Hall. split; try done.
  - exists []. by rewrite app_nil_r.
  - by rewrite app_nil_r.
  - intros q. by rewrite rows_app_no_rows_r.
Qed.

(** The object at [t] is replaced by one of the same dynamic type, the
    heap grows by [k] and the events [tr] are recorded. *)
Lemma effect_update (t : ptr) (o o' : Transformer) (k : Strings)
    (tr : list Event) (d : Dataset) (w : World) :
  edges_allocated w ->
  objs w !! t = Some o ->
  kind_of o' = kind_of o ->
  allocated_in (strs w ++ k) o' ->
  rows_of (strs w ++ k) (Some o') = rows_app (rows_of (strs w) (Some o)) d ->
  effect [t] (calls tr) (only t d) w
    (mkWorld (driller w) (strs w ++ k) (<[t := o']> (objs w)) (trace w ++ tr)).
Proof.
  intros Hall Ht Hk Ho' Hrows.
  assert (Hlt : (t < List.length (objs w))%nat) by (by eapply lookup_lt_Some).
  split; cbn [driller strs objs trace].
  - done.
  - unfold kinds. cbn [objs]. rewrite list_fmap_insert, Hk.
    apply list_insert_id. by rewrite list_lookup_fmap, Ht.
  - intros q Hq. apply list_lookup_insert_ne.
    intros ->. apply Hq. constructor.
  - by exists k.
  - intros p x Hp. cbn [strs objs] in *.
    destruct (decide (p = t)) as [->|Hne].
    + rewrite list_lookup_insert_eq in Hp by done. by injection Hp as <-.
    + rewrite list_lookup_insert_ne in Hp by done.
      apply allocated_in_app. by eapply Hall.
  - apply calls_app.
  - intros q. unfold dataset, only. cbn [strs objs].
    destruct (decide (q = t)) as [->|Hne].
    + rewrite list_lookup_insert_eq by done. by rewrite Ht.
    + rewrite list_lookup_insert_ne by done.
      rewrite rows_app_no_rows_r.
      destruct (objs w !! q) as [x|] eqn:Hq; [|done].
      apply rows_of_app. by eapply Hall.
Qed.

Lemma effect_update_eq (t : ptr) (o o' : Transformer) (k : Strings)
    (tr : list Event) (d : Dataset) (w w' : World) :
  edges_allocated w ->
  objs w !! t = Some o ->
  kind_of o' = kind_of o ->
  allocated_in (strs w ++ k) o' ->
  rows_of (strs w ++ k) (Some o') = rows_app (rows_of (strs w) (Some o)) d ->
  driller w' = driller w ->
  strs w' = strs w ++ k ->
  objs w' = <[t := o']> (objs w) ->
  trace w' = trace w ++ tr ->
  effect [t] (calls tr) (only t d) w w'.
Proof.
  intros Hall Ht Hk Ho' Hrows E1 E2 E3 E4.
  destruct w' as [d' s' o'' t']. cbn in E1, E2, E3, E4. subst.
  by eapply effect_update.
Qed.

Lemma effect_trace_eq (tr : list Event) (w w' : World) :
  edges_allocated w ->
  calls tr = [] ->
  driller w' = driller w ->
  strs w' = strs w ->
  objs w' = objs w ->
  trace w' = trace w ++ tr ->
  forall t d, (forall q, d q = no_rows) -> effect [t] [] d w w'.
Proof.
  intros Hall Hc E1 E2 E3 E4 t d Hd.
  destruct w' as [d' s' o'' t']. cbn in E1, E2, E3, E4. subst.
  rewrite <- Hc.
  eapply effect_ext; [|reflexivity| |by apply effect_trace].
  - intros q Hq. by apply elem_of_nil in Hq.
  - intros q. by rewrite Hd.
Qed.

Lemma calls_CopyFile (t : ptr) (files : list File) :
  calls (map (EvCopyFile t) files) = [].
Proof. induction files as [|f rest IH]; [done|]. exact IH. Qed.

Lemma only_no_rows (t q : ptr) : only t no_rows q = no_rows.
Proof. unfold only. by destruct (decide (q = t)). Qed.

Ltac unchanged :=
  eapply (effect_trace_eq []);
  [ done | done | done | done | done
  | by rewrite app_nil_r
  | intros ?; apply only_no_rows ].

Section VisitEffect.

Variable GetRepositoryName : RepositoryConfig.t -> string.
Variable ShortenHash : string -> string.

Abbreviation visitCommit' := (visitCommit GetRepositoryName ShortenHash).
Abbreviation visit_rows' := (visit_rows GetRepositoryName ShortenHash).

Lemma visitCommit_CommitHistory_nil_config (commit : Commit) (t : ptr)
    (w : World) (v : CommitHistoryTransformer.t) :
  objs w !! t = Some (CommitHistory v) ->
  config (driller w) = None ->
  visitCommit' commit t w = (Panicked nil_dereference, w).
Proof.
  intros Ht Hc. unfold visitCommit. run. rewrite Ht, Hc. reflexivity.
Qed.

Lemma kinds_lookup (w : World) (t : ptr) :
  kinds w !! t = kind_of <$> objs w !! t.
Proof. unfold kinds. apply list_lookup_fmap. Qed.

(** One visit, whatever the transformer and the commit: the value
    [visitCommit] ends with, and what it leaves behind. *)
Lemma visitCommit_effect (commit : Commit) (t : ptr) (w : World) :
  edges_allocated w ->
  fst (visitCommit' commit t w)
  = visit_outcome (config (driller w)) (kinds w !! t) commit
  /\ effect [t] []
       (only t (visit_rows' (config (driller w)) (kinds w !! t) commit))
       w (snd (visitCommit' commit t w)).
Proof.
  intros Hall. rewrite kinds_lookup.
  destruct (objs w !! t) as [[v|v|v|name]|] eqn:Ht;
    cbn [fmap option_fmap option_map kind_of].
  - (* commit history *)
    destruct (config (driller w)) as [cfg|] eqn:Hc.
    + rewrite (visitCommit_CommitHistory _ _ _ _ _ v cfg Ht Hc). cbn [fst snd].
      split; [reflexivity|].
      change (@nil Call) with (calls []).
      eapply effect_update_eq; cycle 5; cbn [strs objs trace driller];
        [reflexivity | reflexivity | reflexivity | symmetry; apply app_nil_r
        | exact Hall | exact Ht | reflexivity | | ].
      * cbn. apply Forall_app. split.
        -- eapply Forall_impl; [exact (Hall _ _ Ht)|].
           intros e. apply edge_allocated_app.
        -- apply Forall_replicate. unfold edge_allocated. cbn.
           rewrite length_app. cbn. lia.
      * cbn. unfold rows_app. cbn. f_equal.
        rewrite map_app. f_equal.
        -- apply map_ext_Forall.
           eapply Forall_impl; [exact (Hall _ _ Ht)|].
           intros e [H1 H2]. by apply edge_value_app_l.
        -- induction (List.length (ParentHashes commit)) as [|n IH]; [done|].
           cbn [replicate map]. rewrite IH. f_equal.
           unfold edge_value, load. cbn.
           rewrite list_lookup_middle by reflexivity.
           rewrite lookup_app_r by lia.
           by replace (S (List.length (strs w)) - List.length (strs w))%nat
             with 1%nat by lia.
    + rewrite (visitCommit_CommitHistory_nil_config _ _ _ v Ht Hc). cbn [fst snd].
      split; [reflexivity|].
      unchanged.
  - (* file inventory *)
    destruct (Files commit) as [err|fs [err|]] eqn:Hf.
    + rewrite (visitCommit_CommitContent_Files_error _ _ _ _ _ v err Ht Hf).
      cbn [fst snd]. unfold visit_outcome, visit_rows. rewrite Hf.
      split; [reflexivity|].
      unchanged.
    + rewrite (visitCommit_CommitContent_ForEach_error _ _ _ _ _ v fs err Ht Hf).
      cbn [fst snd]. unfold visit_outcome, visit_rows. rewrite Hf.
      split; [reflexivity|].
      replace (@nil Call) with (calls (map (EvCopyFile t) fs ++ [EvLog err]))
        by (rewrite calls_app, calls_CopyFile; reflexivity).
      eapply effect_update_eq; cycle 5; cbn [strs objs trace driller];
        [reflexivity | symmetry; apply app_nil_r | reflexivity | reflexivity
        | exact Hall | exact Ht | reflexivity | exact I | reflexivity ].
    + rewrite (visitCommit_CommitContent _ _ _ _ _ v fs Ht Hf).
      cbn [fst snd]. unfold visit_outcome, visit_rows. rewrite Hf.
      split; [reflexivity|].
      rewrite <- (calls_CopyFile t fs).
      eapply effect_update_eq; cycle 5; cbn [strs objs trace driller];
        [reflexivity | symmetry; apply app_nil_r | reflexivity | reflexivity
        | exact Hall | exact Ht | reflexivity | exact I | reflexivity ].
  - (* structure *)
    destruct (Files commit) as [err|fs err] eqn:Hf.
    + rewrite (visitCommit_StructureInfo_Files_error _ _ _ _ _ v err Ht Hf).
      cbn [fst snd]. unfold visit_outcome, visit_rows. rewrite Hf.
      split; [reflexivity|].
      eapply (effect_trace_eq [EvLog err]); try done.
      intros q. apply only_no_rows.
    + rewrite (visitCommit_StructureInfo _ _ _ _ _ v fs err Ht Hf).
      cbn [fst snd]. unfold visit_outcome, visit_rows. rewrite Hf.
      split; [reflexivity|].
      change (@nil Call) with (calls []).
      eapply effect_update_eq; cycle 5; cbn [strs objs trace driller];
        [reflexivity | symmetry; apply app_nil_r | reflexivity
        | symmetry; apply app_nil_r
        | exact Hall | exact Ht | reflexivity | exact I | reflexivity ].
  - rewrite (visitCommit_OtherTransformer _ _ _ _ _ name Ht). cbn [fst snd].
    split; [reflexivity|].
    unchanged.
  - rewrite (visitCommit_nil _ _ _ _ _ Ht). cbn [fst snd].
    split; [reflexivity|].
    unchanged.
Qed.

End VisitEffect.

Lemma edges_allocated_trace (w : World) (tr : list Event) :
  edges_allocated w ->
  edges_allocated (mkWorld (driller w) (strs w) (objs w) tr).
Proof. intros Hall p o Hp. exact (Hall p o Hp). Qed.

Lemma bind_unfold {A B : Type} (m : M A) (f : A -> M B) (w : World) :
  (m ≫= f) w
  = match m w with
    | (Returned a, w') => f a w'
    | (Exited msg, w') => (Exited msg, w')
    | (Panicked msg, w') => (Panicked msg, w')
    end.
Proof. reflexivity. Qed.

Section WalkEffect.

Variable GetRepositoryName : RepositoryConfig.t -> string.
Variable ShortenHash : string -> string.

Abbreviation commits_ForEach' := (commits_ForEach GetRepositoryName ShortenHash).
Abbreviation walk_rows' := (walk_rows GetRepositoryName ShortenHash).

(** One walk: it returns exactly when every visit does, and then it has
    recorded one visit a commit, in the order of the walk, and appended the
    rows of the visits to the transformer walked, and to no other. *)
Lemma commits_ForEach_effect (t : ptr) (commits : list Commit) :
  forall (count : Z) (w : World),
    edges_allocated w ->
    if walk_returns (config (driller w)) (kinds w !! t) commits
    then (exists n, fst (commits_ForEach' t commits count w) = Returned n)
         /\ effect [t] (map (CallVisitCommit t) commits)
              (only t (walk_rows' (config (driller w)) (kinds w !! t) commits))
              w (snd (commits_ForEach' t commits count w))
    else forall n, fst (commits_ForEach' t commits count w) <> Returned n.
Proof.
  induction commits as [|commit rest IH]; intros count w Hall.
  - cbn. split; [by eexists|].
    eapply effect_ext; [|reflexivity| |by apply effect_refl].
    + intros q Hq. by apply elem_of_nil in Hq.
    + intros q. by rewrite only_no_rows.
  - cbn [commits_ForEach walk_rows map].
    change (walk_returns (config (driller w)) (kinds w !! t) (commit :: rest))
      with (visit_returns (config (driller w)) (kinds w !! t) commit
            && walk_returns (config (driller w)) (kinds w !! t) rest).
    rewrite bind_unfold. cbn [emit].
    set (w1 := mkWorld (driller w) (strs w) (objs w)
                 (trace w ++ [EvCall (CallVisitCommit t commit)])).
    assert (Hall1 : edges_allocated w1) by (by apply edges_allocated_trace).
    assert (E01 : effect [] [CallVisitCommit t commit] (fun _ => no_rows) w w1)
      by (by apply (effect_trace w [EvCall (CallVisitCommit t commit)])).
    destruct (visitCommit_effect GetRepositoryName ShortenHash commit t w1 Hall1)
      as [Hout E12].
    change (config (driller w1)) with (config (driller w)) in Hout, E12.
    change (kinds w1) with (kinds w) in Hout, E12.
    rewrite bind_unfold.
    destruct (visitCommit GetRepositoryName ShortenHash commit t w1)
      as [out w2] eqn:Hv.
    cbn [fst snd] in Hout, E12.
    unfold visit_returns at 1. rewrite <- Hout.
    destruct out as [n|msg|msg]; cbn [andb]; [|by intros n|by intros n].
    rewrite bind_unfold.
    set (count' := wrap64 (count + n)).
    set (w3 := if count' =? 0 then w2
               else mkWorld (driller w2) (strs w2) (objs w2)
                      (trace w2 ++ [EvProcessed count'])).
    assert (Hstep : (if count' =? 0 then mret () else emit (EvProcessed count')) w2
                    = (Returned (), w3)).
    { unfold w3. by destruct (count' =? 0). }
    rewrite Hstep.
    assert (E23 : effect [] [] (fun _ => no_rows) w2 w3).
    { unfold w3. destruct (count' =? 0).
      - apply effect_refl. apply E12.
      - apply (effect_trace w2 [EvProcessed count']). apply E12. }
    assert (E03 : effect [t] [CallVisitCommit t commit]
                    (only t (visit_rows GetRepositoryName ShortenHash
                               (config (driller w)) (kinds w !! t) commit))
                    w w3).
    { eapply effect_ext;
        [|reflexivity| |exact (effect_trans _ _ _ _ _ _ _ _ _
                     (effect_trans _ _ _ _ _ _ _ _ _ E01 E12) E23)].
      - by rewrite app_nil_r.
      - intros q. cbn beta.
        by rewrite rows_app_no_rows_l, rows_app_no_rows_r. }
    specialize (IH count' w3 (eff_allocated _ _ _ _ _ E03)).
    rewrite (eff_driller _ _ _ _ _ E03), (eff_kinds _ _ _ _ _ E03) in IH.
    revert IH.
    destruct (walk_returns (config (driller w)) (kinds w !! t) rest); intros IH.
    + destruct IH as [Hret E3]. split; [exact Hret|].
      eapply effect_ext; [|reflexivity| |exact (effect_trans _ _ _ _ _ _ _ _ _ E03 E3)].
      * intros q Hq. apply elem_of_app in Hq. by destruct Hq.
      * intros q. cbn beta. apply only_rows_app.
    + exact IH.
Qed.

End WalkEffect.

(** ** Export and Analyze *)

Lemma Export_returns (t : ptr) (w : World) (o : Transformer) :
  objs w !! t = Some o ->
  exists tr,
    Export t w
    = (Returned tt, mkWorld (driller w) (strs w) (objs w) (trace w ++ tr))
    /\ calls tr = [CallExport t].
Proof.
  intros Ht. unfold Export. run. rewrite Ht. run.
  destruct o as [v|v|v|name];
    unfold CommitHistoryTransformer_Export, CommitContentTransformer_Export,
      StructureInfoTransformer_Export; run.
  - eexists [_; _; _]. rewrite <- !app_assoc. split; reflexivity.
  - eexists [_; _]. rewrite <- !app_assoc. split; reflexivity.
  - eexists [_; _]. rewrite <- !app_assoc. split; reflexivity.
  - eexists [_]. split; reflexivity.
Qed.

Lemma Export_nil (t : ptr) (w : World) :
  objs w !! t = None -> Export t w = (Panicked nil_dereference, w).
Proof. intros Ht. unfold Export. run. rewrite Ht. reflexivity. Qed.

Lemma kinds_lookup_Some (w : World) (t : ptr) (k : Kind) :
  kinds w !! t = Some k -> exists o, objs w !! t = Some o /\ kind_of o = k.
Proof.
  rewrite kinds_lookup. destruct (objs w !! t) as [o|]; [|done].
  intros [= <-]. by exists o.
Qed.

Section AnalyzeEffect.

Variable GetRepositoryName : RepositoryConfig.t -> string.
Variable ShortenHash : string -> string.

Abbreviation Analyze_loop' := (Analyze_loop GetRepositoryName ShortenHash).
Abbreviation loop_rows' := (loop_rows GetRepositoryName ShortenHash).
Abbreviation Analyze' := (Analyze GetRepositoryName ShortenHash).
Abbreviation analyze_rows' := (analyze_rows GetRepositoryName ShortenHash).

(** The loop of [Analyze]: it returns exactly when [loop_returns] says so,
    and then the calls recorded are the schedule, and every transformer has
    been appended the rows of its walks. *)
Lemma Analyze_loop_effect (repo : Repository) (head : Hash) (n : nat)
    (ts : list ptr) :
  forall (i : nat) (w : World),
    edges_allocated w ->
    if loop_returns repo head (config (driller w)) (kinds w) ts
    then fst (Analyze_loop' repo head n i ts w) = Returned tt
         /\ effect ts (schedule head (walk_of repo head) ts)
              (loop_rows' repo head (config (driller w)) (kinds w) ts)
              w (snd (Analyze_loop' repo head n i ts w))
    else fst (Analyze_loop' repo head n i ts w) <> Returned tt.
Proof.
  induction ts as [|t rest IH]; intros i w Hall.
  - cbn. split; [done|]. by apply effect_refl.
  - cbn [Analyze_loop loop_returns loop_rows].
    rewrite bind_unfold. cbn [emit].
    set (w0 := mkWorld (driller w) (strs w) (objs w)
                 (trace w ++ [EvCall (CallLog head)])).
    rewrite bind_unfold. unfold schedule, walk_of.
    destruct (Log repo head) as [e|refs] eqn:HL; [done|].
    cbn [mret M_ret]. rewrite bind_unfold.
    destruct (kinds w !! t) as [k|] eqn:Hk.
    2:{ rewrite kinds_lookup in Hk. unfold deref, dynamic. rewrite bind_unfold.
        change (objs w0) with (objs w).
        destruct (objs w !! t); [done|]. by cbn. }
    destruct (kinds_lookup_Some _ _ _ Hk) as (o & Ho & Hko).
    unfold deref, dynamic. rewrite bind_unfold.
    change (objs w0) with (objs w). rewrite Ho. cbn [mret M_ret].
    rewrite bind_unfold. cbn [emit].
    set (w1 := mkWorld (driller w0) (strs w0) (objs w0)
                 (trace w0 ++ [EvLogRunning (i + 1) n (Transformer_GetName o)])).
    assert (E01 : effect [] [CallLog head] (fun _ => no_rows) w w1).
    { unfold w1, w0. cbn [driller strs objs trace]. rewrite <- app_assoc.
      by apply (effect_trace w [EvCall (CallLog head); EvLogRunning _ _ _]). }
    pose proof (commits_ForEach_effect GetRepositoryName ShortenHash t
                  (fst refs) 0 w1 (eff_allocated _ _ _ _ _ E01)) as Hwalk.
    change (config (driller w1)) with (config (driller w)) in Hwalk.
    change (kinds w1) with (kinds w) in Hwalk.
    rewrite Hk in Hwalk. rewrite bind_unfold.
    destruct (walk_returns (config (driller w)) (Some k) (fst refs));
      cbn [andb].
    2:{ destruct (commits_ForEach GetRepositoryName ShortenHash t (fst refs) 0 w1)
          as [[c| |] w2]; cbn [fst] in *; [by destruct (Hwalk c)|done|done]. }
    destruct Hwalk as [[c Hc] E12].
    destruct (commits_ForEach GetRepositoryName ShortenHash t (fst refs) 0 w1)
      as [out w2]. cbn [fst snd] in Hc, E12. subst out.
    rewrite bind_unfold.
    assert (E02 := effect_trans _ _ _ _ _ _ _ _ _ E01 E12).
    assert (Hk2 : kinds w2 !! t = Some k)
      by (by rewrite (eff_kinds _ _ _ _ _ E02)).
    destruct (kinds_lookup_Some _ _ _ Hk2) as (o2 & Ho2 & _).
    destruct (Export_returns t w2 o2 Ho2) as (tr & -> & Htr).
    set (w3 := mkWorld (driller w2) (strs w2) (objs w2) (trace w2 ++ tr)).
    assert (E23 : effect [] [CallExport t] (fun _ => no_rows) w2 w3).
    { rewrite <- Htr. apply effect_trace. apply E02. }
    assert (E03 := effect_trans _ _ _ _ _ _ _ _ _ E02 E23).
    specialize (IH (S i) w3 (eff_allocated _ _ _ _ _ E03)).
    rewrite (eff_driller _ _ _ _ _ E03), (eff_kinds _ _ _ _ _ E03) in IH.
    revert IH.
    destruct (loop_returns repo head (config (driller w)) (kinds w) rest);
      intros IH; [|exact IH].
    destruct IH as [Hret E3]. split; [exact Hret|].
    eapply effect_ext; [| | |exact (effect_trans _ _ _ _ _ _ _ _ _ E03 E3)].
    + intros q Hq. cbn in Hq. exact Hq.
    + unfold schedule, walk_of. rewrite HL. cbn. by rewrite <- !app_assoc.
    + intros q. cbn beta.
      by rewrite rows_app_no_rows_l, rows_app_no_rows_r.
Qed.

End AnalyzeEffect.

Section AnalyzeProperties.

Variable GetRepositoryName : RepositoryConfig.t -> string.
Variable ShortenHash : string -> string.

Abbreviation Analyze' := (Analyze GetRepositoryName ShortenHash).
Abbreviation analyze_rows' := (analyze_rows GetRepositoryName ShortenHash).
Abbreviation visitCommit' := (visitCommit GetRepositoryName ShortenHash).
Abbreviation schedule_rows' := (schedule_rows GetRepositoryName ShortenHash).

Lemma Analyze_effect (w : World) :
  edges_allocated w ->
  if analyze_returns w
  then fst (Analyze' w) = Returned tt
       /\ exists repo head,
            repository (driller w) = Some repo
            /\ Head repo = inr head
            /\ effect (transformer (driller w))
                 (schedule head (walk_of repo head) (transformer (driller w)))
                 (analyze_rows' w) w (snd (Analyze' w))
  else fst (Analyze' w) <> Returned tt.
Proof.
  intros Hall. unfold analyze_returns, analyze_rows, Analyze.
  rewrite bind_unfold. cbn [emit]. rewrite bind_unfold. cbn [get_driller].
  rewrite bind_unfold. cbn [emit driller]. rewrite bind_unfold.
  destruct (repository (driller w)) as [repo|] eqn:Hr; [|done].
  cbn [mret M_ret]. rewrite bind_unfold. cbn [emit]. rewrite bind_unfold.
  destruct (Head repo) as [e|head] eqn:Hh; [done|].
  cbn [mret M_ret].
  set (w1 := mkWorld _ _ _ _).
  assert (E01 : effect [] [] (fun _ => no_rows) w w1).
  { unfold w1. cbn [driller strs objs trace]. rewrite <- !app_assoc.
    apply (effect_trace w [EvProgress _; EvLogCount _; EvRepoHead]). exact Hall. }
  pose proof (Analyze_loop_effect GetRepositoryName ShortenHash repo head
                (List.length (transformer (driller w))) (transformer (driller w))
                0%nat w1 (eff_allocated _ _ _ _ _ E01)) as Hloop.
  change (config (driller w1)) with (config (driller w)) in Hloop.
  change (kinds w1) with (kinds w) in Hloop.
  revert Hloop.
  destruct (loop_returns repo head (config (driller w)) (kinds w)
              (transformer (driller w))); intros Hloop; [|exact Hloop].
  destruct Hloop as [Hret E1]. split; [exact Hret|].
  exists repo, head. split; [done|]. split; [done|].
  eapply effect_ext; [| | |exact (effect_trans _ _ _ _ _ _ _ _ _ E01 E1)].
  - done.
  - done.
  - intros q. cbn beta. by rewrite rows_app_no_rows_l.
Qed.

Lemma loop_returns_true (repo : Repository) (head : Hash)
    (cfg : option RepositoryConfig.t) (ks : list Kind)
    (refs : list Commit * option string) (ts : list ptr) :
  Log repo head = inr refs ->
  (forall t, t ∈ ts ->
     exists k, ks !! t = Some k /\ walk_returns cfg (Some k) (fst refs) = true) ->
  loop_returns repo head cfg ks ts = true.
Proof.
  intros HL. induction ts as [|t rest IH]; intros Hts; [done|].
  cbn [loop_returns]. rewrite HL.
  destruct (Hts t) as (k & -> & ->); [constructor|].
  cbn [andb]. apply IH. intros t' Ht'. apply Hts. by constructor.
Qed.

Lemma loop_rows_schedule_rows (repo : Repository) (head : Hash)
    (cfg : option RepositoryConfig.t) (ks : list Kind)
    (refs : list Commit * option string) (ts : list ptr) (q : ptr) :
  Log repo head = inr refs ->
  loop_rows GetRepositoryName ShortenHash repo head cfg ks ts q
  = schedule_rows' cfg ks (fst refs) ts q.
Proof.
  intros HL. induction ts as [|t rest IH]; [reflexivity|].
  cbn [loop_rows schedule_rows fold_right]. rewrite HL, IH. reflexivity.
Qed.

(** C7.  [AppendTransformer] registers at the end of the list.  An engine
    with a repository whose head resolves and whose log from the head
    yields [commits], where every registered transformer is there and none
    of its visits ends the run: [Analyze] returns, and the calls it has
    made are, for each transformer in registration order, one [Log] from
    the head, the visit of every commit of that walk by that transformer,
    then its export.  Every commit of a walk has reached the transformer of
    that walk and no other: after the run the rows any transformer holds
    are those it held before followed, for each time it is registered, by
    the rows of one walk over [commits] by a transformer of its type, and
    by nothing for the walks of the others.  Objects that are not
    registered are unchanged; and a visit by one transformer changes no
    other object, nor the rows any other transformer holds. *)
Theorem Analyze_runs_each_transformer_in_order (w : World) (repo : Repository)
    (head : Hash) (commits : list Commit) (err : option string) :
  edges_allocated w ->
  repository (driller w) = Some repo ->
  Head repo = inr head ->
  Log repo head = inr (commits, err) ->
  (forall t, t ∈ transformer (driller w) ->
     exists k, kinds w !! t = Some k
               /\ walk_returns (config (driller w)) (Some k) commits = true) ->
  (forall (t : ptr) (u : World),
     transformer (driller (snd (AppendTransformer t u)))
     = transformer (driller u) ++ [t])
  /\ (exists w',
        Analyze' w = (Returned tt, w')
        /\ calls (trace w')
           = calls (trace w) ++ schedule head commits (transformer (driller w))
        /\ (forall q,
              dataset w' q
              = rows_app (dataset w q)
                  (schedule_rows' (config (driller w)) (kinds w) commits
                     (transformer (driller w)) q))
        /\ forall q, q ∉ transformer (driller w) -> objs w' !! q = objs w !! q)
  /\ (forall (commit : Commit) (t : ptr) (u : World),
        edges_allocated u ->
        forall q, q <> t ->
          objs (snd (visitCommit' commit t u)) !! q = objs u !! q
          /\ dataset (snd (visitCommit' commit t u)) q = dataset u q).
Proof.
  intros Hall Hr Hh HL Hts. split; [|split].
  - intros t u. unfold AppendTransformer. run.
    by destruct (objs u !! t).
  - pose proof (Analyze_effect w Hall) as HA.
    unfold analyze_returns in HA. rewrite Hr, Hh in HA.
    rewrite (loop_returns_true repo head _ _ (commits, err) _ HL Hts) in HA.
    destruct HA as (Hret & repo' & head' & Hr' & Hh' & E).
    injection Hr' as <-. rewrite Hh in Hh'. injection Hh' as <-.
    exists (snd (Analyze' w)). split; [|split; [|split]].
    + destruct (Analyze' w) as [out w']. cbn in *. by subst.
    + rewrite (eff_calls _ _ _ _ _ E). unfold walk_of. by rewrite HL.
    + intros q. rewrite (eff_dataset _ _ _ _ _ E q). f_equal.
      unfold analyze_rows. rewrite Hr, Hh.
      exact (loop_rows_schedule_rows repo head _ _ (commits, err) _ q HL).
    + apply (eff_frame _ _ _ _ _ E).
  - intros commit t u Hu q Hq.
    destruct (visitCommit_effect GetRepositoryName ShortenHash commit t u Hu)
      as [_ E].
    split.
    + apply (eff_frame _ _ _ _ _ E). intros Hin.
      apply list_elem_of_singleton in Hin. done.
    + rewrite (eff_dataset _ _ _ _ _ E). unfold only.
      destruct (decide (q = t)); [done|]. apply rows_app_no_rows_r.
Qed.

(** C9.  [Analyze] run a second time on the engine the first run left,
    against the same repository: the second run returns as the first did;
    for every transformer the two runs append the same rows [rows], in the
    same order; so the transformer holds after the second run the same
    vertices, the same edges (as the sink reads them) and the same file
    rows as after the first, as sets. *)
Theorem Analyze_again_same_rows (w w1 : World) :
  edges_allocated w ->
  Analyze' w = (Returned tt, w1) ->
  exists w2,
    Analyze' w1 = (Returned tt, w2)
    /\ forall q,
         (exists rows,
            dataset w1 q = rows_app (dataset w q) rows
            /\ dataset w2 q = rows_app (dataset w1 q) rows)
         /\ same_rows (dataset w2 q) (dataset w1 q).
Proof.
  intros Hall Hrun.
  pose proof (Analyze_effect w Hall) as HA. rewrite Hrun in HA. cbn [fst snd] in HA.
  destruct (analyze_returns w) eqn:Hw; [|done].
  destruct HA as (_ & repo & head & Hr & Hh & E).
  pose proof (Analyze_effect w1 (eff_allocated _ _ _ _ _ E)) as HB.
  assert (Hw1 : analyze_returns w1 = true).
  { unfold analyze_returns in *.
    by rewrite (eff_driller _ _ _ _ _ E), (eff_kinds _ _ _ _ _ E). }
  rewrite Hw1 in HB.
  destruct HB as (Hret & repo' & head' & _ & _ & E').
  exists (snd (Analyze' w1)). split.
  { destruct (Analyze' w1) as [out w2]. cbn in *. by subst. }
  intros q.
  assert (HR : analyze_rows' w1 q = analyze_rows' w q).
  { unfold analyze_rows.
    by rewrite (eff_driller _ _ _ _ _ E), (eff_kinds _ _ _ _ _ E). }
  pose proof (eff_dataset _ _ _ _ _ E q) as H1.
  pose proof (eff_dataset _ _ _ _ _ E' q) as H2. rewrite HR in H2.
  split; [by eexists|].
  rewrite H2, H1. unfold same_rows, rows_app. cbn.
  repeat split; intros H; rewrite !elem_of_app in *; tauto.
Qed.

End AnalyzeProperties.

(** ** The scenarios of the spec *)

Lemma edges_allocated_Forall (w : World) :
  Forall (allocated_in (strs w)) (objs w) -> edges_allocated w.
Proof.
  intros HF p o Hp. rewrite Forall_forall in HF. apply HF.
  by eapply list_elem_of_lookup_2.
Qed.

Lemma scenario_A_allocated : edges_allocated Scenario.scenario_A.
Proof. apply edges_allocated_Forall. repeat constructor. Qed.

Lemma Analyze_runs_each_transformer_in_order_witness :
  (forall (t : ptr) (u : World),
     transformer (driller (snd (AppendTransformer t u)))
     = transformer (driller u) ++ [t])
  /\ (exists w',
        Analyze Scenario.GetRepositoryName Scenario.ShortenHash
          Scenario.scenario_A
        = (Returned tt, w')
        /\ calls (trace w')
           = [CallLog Scenario.hash_C2;
              CallVisitCommit 0%nat Scenario.C2;
              CallVisitCommit 0%nat Scenario.C1;
              CallExport 0%nat;
              CallLog Scenario.hash_C2;
              CallVisitCommit 1%nat Scenario.C2;
              CallVisitCommit 1%nat Scenario.C1;
              CallExport 1%nat]
        /\ dataset w' 0%nat
           = mkDataset
               [vertex_of (Scenario.GetRepositoryName Scenario.cfg) "c2c2c2"
                  Scenario.C2;
                vertex_of (Scenario.GetRepositoryName Scenario.cfg) "c1c1c1"
                  Scenario.C1]
               [(Hash_String Scenario.hash_C2, Hash_String Scenario.hash_C1)]
               []
        /\ dataset w' 1%nat
           = mkDataset [] []
               [file_row Scenario.C2 Scenario.a_txt;
                file_row Scenario.C2 Scenario.b_txt;
                file_row Scenario.C1 Scenario.a_txt]
        /\ forall q, q ∉ transformer (driller Scenario.scenario_A) ->
                     objs w' !! q = objs Scenario.scenario_A !! q)
  /\ (forall (commit : Commit) (t : ptr) (u : World),
        edges_allocated u ->
        forall q, q <> t ->
          objs (snd (visitCommit Scenario.GetRepositoryName Scenario.ShortenHash
                       commit t u)) !! q = objs u !! q
          /\ dataset (snd (visitCommit Scenario.GetRepositoryName
                             Scenario.ShortenHash commit t u)) q
             = dataset u q).
Proof.
  destruct (Analyze_runs_each_transformer_in_order
              Scenario.GetRepositoryName Scenario.ShortenHash Scenario.scenario_A
              (Scenario.repository_of [Scenario.C2; Scenario.C1] Scenario.hash_C2)
              Scenario.hash_C2 [Scenario.C2; Scenario.C1] None)
    as (Happ & (w' & Hrun & Hcalls & Hrows & Hframe) & Hvisit).
  - exact scenario_A_allocated.
  - reflexivity.
  - reflexivity.
  - reflexivity.
  - intros t Ht. cbn in Ht.
    apply elem_of_cons in Ht as [->|Ht];
      [exists KCommitHistory; split; vm_compute; reflexivity|].
    apply elem_of_cons in Ht as [->|Ht];
      [exists KCommitContent; split; vm_compute; reflexivity|].
    by apply elem_of_nil in Ht.
  - split; [exact Happ|]. split; [|exact Hvisit].
    exists w'. split; [exact Hrun|].
    split; [rewrite Hcalls; reflexivity|].
    split; [rewrite Hrows; reflexivity|].
    split; [rewrite Hrows; reflexivity|].
    exact Hframe.
Defined.

Lemma Analyze_again_same_rows_witness :
  exists w2,
    Analyze Scenario.GetRepositoryName Scenario.ShortenHash
      (snd (Analyze Scenario.GetRepositoryName Scenario.ShortenHash
              Scenario.scenario_A))
    = (Returned tt, w2)
    /\ forall q,
         (exists rows,
            dataset (snd (Analyze Scenario.GetRepositoryName
                            Scenario.ShortenHash Scenario.scenario_A)) q
            = rows_app (dataset Scenario.scenario_A q) rows
            /\ dataset w2 q
               = rows_app
                   (dataset (snd (Analyze Scenario.GetRepositoryName
                                    Scenario.ShortenHash Scenario.scenario_A)) q)
                   rows)
         /\ same_rows (dataset w2 q)
              (dataset (snd (Analyze Scenario.GetRepositoryName
                               Scenario.ShortenHash Scenario.scenario_A)) q).
Proof.
  apply (Analyze_again_same_rows
           Scenario.GetRepositoryName Scenario.ShortenHash Scenario.scenario_A).
  - exact scenario_A_allocated.
  - vm_compute. reflexivity.
Defined.

(** * Further properties *)

(** ** The buffers of the commit-history transformer *)

(** X3.  The two buffers are independent: appending a vertex and then the
    edges of a commit leaves the transformer and the heap as appending the
    edges first and the vertex after. *)
Theorem AppendCommitVertex_AppendCommitEdge_commute
    (transformer : CommitHistoryTransformer.t) (commit : CommitVertex.t)
    (commitHash : string) (parentHashes : list string) (h : Strings) :
  CommitHistoryTransformer.AppendCommitEdge
    (CommitHistoryTransformer.AppendCommitVertex transformer commit)
    commitHash parentHashes h
  = (CommitHistoryTransformer.AppendCommitVertex
       (fst (CommitHistoryTransformer.AppendCommitEdge
               transformer commitHash parentHashes h)) commit,
     snd (CommitHistoryTransformer.AppendCommitEdge
            transformer commitHash parentHashes h)).
Proof.
  rewrite !AppendCommitEdge_spec. cbn [fst snd].
  by destruct transformer.
Qed.

(** ** visitCommit: failures and transformers it does not know *)

Section VisitCommitEdges.

Variable GetRepositoryName : RepositoryConfig.t -> string.
Variable ShortenHash : string -> string.

Abbreviation visitCommit' := (visitCommit GetRepositoryName ShortenHash).
Abbreviation commits_ForEach' := (commits_ForEach GetRepositoryName ShortenHash).

(** X4.  File inventory, [commit.Files()] fails: the visit returns -1 and
    leaves the state and the trace as they were; no row is buffered, no file
    copied, nothing logged. *)
Theorem visitCommit_Files_error_changes_nothing (commit : Commit) (t : ptr)
    (w : World) (v : CommitContentTransformer.t) (err : string) :
  objs w !! t = Some (CommitContent v) ->
  Files commit = FilesError err ->
  visitCommit' commit t w = (Returned (-1), w)
  /\ dataset (snd (visitCommit' commit t w)) t = dataset w t.
Proof.
  intros Ht Hf.
  rewrite (visitCommit_CommitContent_Files_error _ _ _ _ _ v err Ht Hf).
  by split.
Qed.

(** X5.  File inventory, the enumeration breaks off with an error after
    [files]: the rows of [files] are buffered and the files copied, then the
    error is logged and the process exits.  The walk ends there: the commits
    after this one are not visited and nothing is exported. *)
Theorem commits_ForEach_exits_on_iteration_error (commit : Commit)
    (rest : list Commit) (count : Z) (t : ptr) (w : World)
    (v : CommitContentTransformer.t) (fs : list File) (err : string) :
  objs w !! t = Some (CommitContent v) ->
  Files commit = FileIter fs (Some err) ->
  exists w',
    commits_ForEach' t (commit :: rest) count w = (Exited err, w')
    /\ trace w'
       = trace w ++ EvCall (CallVisitCommit t commit)
                    :: map (EvCopyFile t) fs ++ [EvLog err]
    /\ objs w' !! t
       = Some (CommitContent
                 (CommitContentTransformer.AppendFileContentVertices v
                    (map (file_row commit) fs))).
Proof.
  intros Ht Hf. cbn [commits_ForEach].
  rewrite bind_unfold. cbn [emit]. rewrite bind_unfold.
  erewrite visitCommit_CommitContent_ForEach_error; [|exact Ht|exact Hf].
  eexists. split; [reflexivity|]. cbn [trace objs]. split.
  - by rewrite <- app_assoc.
  - apply list_lookup_insert_eq. by eapply lookup_lt_Some.
Qed.

(** X6.  Structure summary, [commit.Files()] fails: the error is logged and
    the process exits; the transformer is fed no count, the commits after
    this one are not visited. *)
Theorem commits_ForEach_exits_on_structure_Files_error (commit : Commit)
    (rest : list Commit) (count : Z) (t : ptr) (w : World)
    (v : StructureInfoTransformer.t) (err : string) :
  objs w !! t = Some (StructureInfo v) ->
  Files commit = FilesError err ->
  commits_ForEach' t (commit :: rest) count w
  = (Exited err,
     mkWorld (driller w) (strs w) (objs w)
       (trace w ++ [EvCall (CallVisitCommit t commit); EvLog err])).
Proof.
  intros Ht Hf. cbn [commits_ForEach].
  rewrite bind_unfold. cbn [emit]. rewrite bind_unfold.
  erewrite visitCommit_StructureInfo_Files_error; [|exact Ht|exact Hf].
  cbn [driller strs objs trace]. by rewrite <- app_assoc.
Qed.

(** X7.  Structure summary, [commit.Files()] succeeds: the transformer is
    fed the number of files the enumeration handed over, also when the
    enumeration then ended with an error, which is not read; the visit
    returns 0, never the count, and records nothing in the trace. *)
Theorem visitCommit_structure_feeds_count_returns_0 (commit : Commit) (t : ptr)
    (w : World) (v : StructureInfoTransformer.t) (fs : list File)
    (err : option string) :
  objs w !! t = Some (StructureInfo v) ->
  Files commit = FileIter fs err ->
  Z.of_nat (List.length fs) < 2 ^ 63 ->
  visitCommit' commit t w
  = (Returned 0,
     mkWorld (driller w) (strs w)
       (<[t := StructureInfo
                 (StructureInfoTransformer.AddFileCount v
                    (Z.of_nat (List.length fs)))]> (objs w))
       (trace w)).
Proof.
  intros Ht Hf Hn.
  rewrite (visitCommit_StructureInfo _ _ _ _ _ v fs err Ht Hf).
  by rewrite (count_files_length fs Hn).
Qed.

(** X8.  A transformer of a type the engine does not know, or a nil
    interface: none of the three type assertions holds, the visit returns 0
    and changes nothing. *)
Theorem visitCommit_unknown_transformer_changes_nothing (commit : Commit)
    (t : ptr) (w : World) :
  (objs w !! t = None \/ exists name, objs w !! t = Some (OtherTransformer name)) ->
  visitCommit' commit t w = (Returned 0, w).
Proof.
  intros [Ht|[name Ht]].
  - by apply visitCommit_nil.
  - by eapply visitCommit_OtherTransformer.
Qed.

End VisitCommitEdges.

Lemma visitCommit_Files_error_changes_nothing_witness :
  visitCommit Scenario.GetRepositoryName Scenario.ShortenHash
    Scenario.C2_broken 1%nat Scenario.scenario_A
  = (Returned (-1), Scenario.scenario_A)
  /\ dataset (snd (visitCommit Scenario.GetRepositoryName Scenario.ShortenHash
                     Scenario.C2_broken 1%nat Scenario.scenario_A)) 1%nat
     = dataset Scenario.scenario_A 1%nat.
Proof.
  apply (visitCommit_Files_error_changes_nothing
           Scenario.GetRepositoryName Scenario.ShortenHash Scenario.C2_broken
           1%nat Scenario.scenario_A Scenario.file_inventory "object not found");
    reflexivity.
Defined.

Lemma commits_ForEach_exits_on_iteration_error_witness :
  exists w',
    commits_ForEach Scenario.GetRepositoryName Scenario.ShortenHash 1%nat
      (Scenario_errors.C2_cut :: [Scenario.C1]) 0 Scenario.scenario_A
    = (Exited "object not found", w')
    /\ trace w'
       = trace Scenario.scenario_A
         ++ EvCall (CallVisitCommit 1%nat Scenario_errors.C2_cut)
            :: map (EvCopyFile 1%nat) [Scenario.a_txt] ++ [EvLog "object not found"]
    /\ objs w' !! 1%nat
       = Some (CommitContent
                 (CommitContentTransformer.AppendFileContentVertices
                    Scenario.file_inventory
                    (map (file_row Scenario_errors.C2_cut) [Scenario.a_txt]))).
Proof.
  apply (commits_ForEach_exits_on_iteration_error
           Scenario.GetRepositoryName Scenario.ShortenHash Scenario_errors.C2_cut
           [Scenario.C1] 0 1%nat Scenario.scenario_A Scenario.file_inventory
           [Scenario.a_txt] "object not found");
    reflexivity.
Defined.

Lemma commits_ForEach_exits_on_structure_Files_error_witness :
  let w :=
    Scenario.engine (Scenario.repository_of [Scenario.C2_broken] Scenario.hash_C2)
      [StructureInfo Scenario_errors.structure_info] in
  commits_ForEach Scenario.GetRepositoryName Scenario.ShortenHash 0%nat
    (Scenario.C2_broken :: [Scenario.C1]) 0 w
  = (Exited "object not found",
     mkWorld (driller w) (strs w) (objs w)
       (trace w ++ [EvCall (CallVisitCommit 0%nat Scenario.C2_broken);
                    EvLog "object not found"])).
Proof.
  apply (commits_ForEach_exits_on_structure_Files_error
           Scenario.GetRepositoryName Scenario.ShortenHash Scenario.C2_broken
           [Scenario.C1] 0 0%nat
           (Scenario.engine
              (Scenario.repository_of [Scenario.C2_broken] Scenario.hash_C2)
              [StructureInfo Scenario_errors.structure_info])
           Scenario_errors.structure_info "object not found");
    reflexivity.
Defined.

Lemma visitCommit_structure_feeds_count_returns_0_witness :
  let w :=
    Scenario.engine (Scenario.repository_of [Scenario_errors.C2_cut] Scenario.hash_C2)
      [StructureInfo Scenario_errors.structure_info] in
  visitCommit Scenario.GetRepositoryName Scenario.ShortenHash
    Scenario_errors.C2_cut 0%nat w
  = (Returned 0,
     mkWorld (driller w) (strs w)
       (<[0%nat := StructureInfo
                     (StructureInfoTransformer.AddFileCount
                        Scenario_errors.structure_info 1)]> (objs w))
       (trace w)).
Proof.
  apply (visitCommit_structure_feeds_count_returns_0
           Scenario.GetRepositoryName Scenario.ShortenHash Scenario_errors.C2_cut
           0%nat
           (Scenario.engine
              (Scenario.repository_of [Scenario_errors.C2_cut] Scenario.hash_C2)
              [StructureInfo Scenario_errors.structure_info])
           Scenario_errors.structure_info [Scenario.a_txt]
           (Some "object not found"));
    [reflexivity | reflexivity | cbn; lia].
Defined.

Lemma visitCommit_unknown_transformer_changes_nothing_witness :
  visitCommit Scenario.GetRepositoryName Scenario.ShortenHash Scenario.C1 7%nat
    Scenario.scenario_A
  = (Returned 0, Scenario.scenario_A).
Proof.
  apply (visitCommit_unknown_transformer_changes_nothing
           Scenario.GetRepositoryName Scenario.ShortenHash Scenario.C1 7%nat
           Scenario.scenario_A).
  left. reflexivity.
Defined.

(** ** Init: the other paths *)

Section InitPaths.

Variable GetRepositoryName : RepositoryConfig.t -> string.
Variable ShortenHash : string -> string.

Abbreviation Init' := (Init GetRepositoryName).

(** X9.  In-memory path, [git.Clone] succeeds: [Init] returns with the
    handle and the configuration stored, the registered transformers kept,
    and one clone of the configured URL in the trace, after the notice;
    [GetGoGitRepository] then returns that handle. *)
Theorem Init_in_memory_stores_handle (env : Env) (url : string)
    (printLogs : bool) (w : World) (r : option Repository) :
  git_Clone env url = (r, None) ->
  let cfg := RepositoryConfig.mk url false true printLogs in
  Init' env cfg w
  = (Returned tt,
     mkWorld (mkDisdriller r (transformer (driller w)) (Some cfg))
       (strs w) (objs w)
       (trace w ++ [EvLog cloning_into_memory; EvGitClone url printLogs]))
  /\ fst (GetGoGitRepository (snd (Init' env cfg w))) = Returned r.
Proof.
  intros Hc. cbn zeta.
  assert (E : Init' env (RepositoryConfig.mk url false true printLogs) w
              = (Returned tt,
                 mkWorld
                   (mkDisdriller r (transformer (driller w))
                      (Some (RepositoryConfig.mk url false true printLogs)))
                   (strs w) (objs w)
                   (trace w ++ [EvLog cloning_into_memory; EvGitClone url printLogs]))).
  { unfold Init. run. cbn. rewrite Hc. run. by rewrite <- app_assoc. }
  rewrite E. split; reflexivity.
Qed.

(** X10.  In-memory path, [git.Clone] fails: the error is logged and the
    process exits; the configuration has been stored, the handle the engine
    had before is still there. *)
Theorem Init_in_memory_clone_failure_exits (env : Env) (url : string)
    (printLogs : bool) (w : World) (r : option Repository) (err : string) :
  git_Clone env url = (r, Some err) ->
  let cfg := RepositoryConfig.mk url false true printLogs in
  Init' env cfg w
  = (Exited err,
     mkWorld
       (mkDisdriller (repository (driller w)) (transformer (driller w)) (Some cfg))
       (strs w) (objs w)
       (trace w ++ [EvLog cloning_into_memory; EvGitClone url printLogs;
                    EvLog err])).
Proof.
  intros Hc. cbn zeta. unfold Init. run. cbn. rewrite Hc. run.
  by rewrite <- !app_assoc.
Qed.

(** X11.  On-disk path, [ioutil.TempDir] fails: the error is logged and the
    process exits before any clone is tried. *)
Theorem Init_TempDir_failure_exits_before_clone (env : Env) (url : string)
    (printLogs : bool) (w : World) (dir err : string) :
  let cfg := RepositoryConfig.mk url false false printLogs in
  ioutil_TempDir env (GetRepositoryName cfg) = (dir, Some err) ->
  Init' env cfg w
  = (Exited err,
     mkWorld
       (mkDisdriller (repository (driller w)) (transformer (driller w)) (Some cfg))
       (strs w) (objs w)
       (trace w ++ [EvTempDir (GetRepositoryName cfg); EvLog err])).
Proof.
  cbn zeta. intros Hd. unfold Init. run. cbn. rewrite Hd. run.
  by rewrite <- !app_assoc.
Qed.

(** X12.  Whatever the configuration, the environment and the outcome,
    [Init] stores the configuration, keeps the registered transformers and
    their buffers, and records no call of [Analyze] and no call of the
    progress callback. *)
Theorem Init_keeps_transformers (env : Env) (cfg : RepositoryConfig.t)
    (w : World) :
  let w' := snd (Init' env cfg w) in
  config (driller w') = Some cfg
  /\ transformer (driller w') = transformer (driller w)
  /\ objs w' = objs w
  /\ strs w' = strs w
  /\ exists tr,
       trace w' = trace w ++ tr
       /\ Forall (fun e => is_progress e = false) tr
       /\ calls tr = [].
Proof.
  cbn zeta. unfold Init. run.
  destruct cfg as [url [|] inMemory printLogs]; cbn.
  { repeat split. eexists [_]. split; [reflexivity|]. by repeat constructor. }
  destruct inMemory; cbn.
  - destruct (git_Clone env url) as [r [err|]]; run;
      (repeat split; eexists; rewrite <- ?app_assoc; cbn;
       (split; [reflexivity|]); by repeat constructor).
  - destruct (ioutil_TempDir env _) as [dir [err|]]; run.
    + repeat split; eexists; rewrite <- ?app_assoc; cbn;
        (split; [reflexivity|]); by repeat constructor.
    + destruct (git_PlainClone env dir url) as [r err]; run.
      repeat split; eexists; rewrite <- ?app_assoc; cbn;
        (split; [reflexivity|]); by repeat constructor.
Qed.

(** X13.  On-disk path, [git.PlainClone] fails and returns no repository:
    [Init] returns all the same, and [Analyze] called next announces the
    analysis, logs the number of transformers and panics on the nil handle,
    before any transformer is run. *)
Theorem Init_failed_clone_then_Analyze_panics (env : Env) (url : string)
    (printLogs : bool) (w : World) (dir err : string) :
  let cfg := RepositoryConfig.mk url false false printLogs in
  ioutil_TempDir env (GetRepositoryName cfg) = (dir, None) ->
  git_PlainClone env dir url = (None, Some err) ->
  exists w',
    (Init' env cfg ≫= fun _ => Analyze GetRepositoryName ShortenHash) w
    = (Panicked nil_dereference, w')
    /\ calls (trace w') = calls (trace w)
    /\ exports (trace w') = exports (trace w).
Proof.
  cbn zeta. intros Hd Hc. rewrite bind_unfold.
  unfold Init. run. cbn. rewrite Hd. run. rewrite Hc. run.
  unfold Analyze. run. eexists. split; [reflexivity|]. cbn [trace].
  rewrite <- !app_assoc. unfold calls, exports. rewrite !omap_app. cbn.
  by rewrite !app_nil_r.
Qed.

End InitPaths.

Lemma Init_in_memory_stores_handle_witness :
  let r := Some (Scenario.repository_of [Scenario.C1] Scenario.hash_C1) in
  Init Scenario.GetRepositoryName Scenario_errors.clone_succeeds Scenario.cfg
    Scenario_errors.fresh
  = (Returned tt,
     mkWorld (mkDisdriller r [] (Some Scenario.cfg)) [] []
       ([] ++ [EvLog cloning_into_memory;
               EvGitClone "https://example.org/repo.git" false]))
  /\ fst (GetGoGitRepository
            (snd (Init Scenario.GetRepositoryName Scenario_errors.clone_succeeds
                    Scenario.cfg Scenario_errors.fresh)))
     = Returned r.
Proof.
  apply (Init_in_memory_stores_handle Scenario.GetRepositoryName
           Scenario_errors.clone_succeeds "https://example.org/repo.git" false
           Scenario_errors.fresh
           (Some (Scenario.repository_of [Scenario.C1] Scenario.hash_C1))).
  reflexivity.
Defined.

Lemma Init_in_memory_clone_failure_exits_witness :
  Init Scenario.GetRepositoryName Scenario_errors.clone_fails Scenario.cfg
    Scenario_errors.fresh
  = (Exited "authentication required",
     mkWorld (mkDisdriller None [] (Some Scenario.cfg)) [] []
       ([] ++ [EvLog cloning_into_memory;
               EvGitClone "https://example.org/repo.git" false;
               EvLog "authentication required"])).
Proof.
  apply (Init_in_memory_clone_failure_exits Scenario.GetRepositoryName
           Scenario_errors.clone_fails "https://example.org/repo.git" false
           Scenario_errors.fresh None "authentication required").
  reflexivity.
Defined.

Lemma Init_TempDir_failure_exits_before_clone_witness :
  Init Scenario.GetRepositoryName Scenario_errors.temp_dir_fails
    Scenario_errors.on_disk Scenario_errors.fresh
  = (Exited "no space left on device",
     mkWorld (mkDisdriller None [] (Some Scenario_errors.on_disk)) [] []
       ([] ++ [EvTempDir (Scenario.GetRepositoryName Scenario_errors.on_disk);
               EvLog "no space left on device"])).
Proof.
  apply (Init_TempDir_failure_exits_before_clone Scenario.GetRepositoryName
           Scenario_errors.temp_dir_fails "https://example.org/repo.git" false
           Scenario_errors.fresh "" "no space left on device").
  reflexivity.
Defined.

Lemma Init_failed_clone_then_Analyze_panics_witness :
  exists w',
    (Init Scenario.GetRepositoryName Scenario_errors.clone_fails
       Scenario_errors.on_disk
     ≫= fun _ => Analyze Scenario.GetRepositoryName Scenario.ShortenHash)
      Scenario_errors.fresh
    = (Panicked nil_dereference, w')
    /\ calls (trace w') = calls (trace Scenario_errors.fresh)
    /\ exports (trace w') = exports (trace Scenario_errors.fresh).
Proof.
  apply (Init_failed_clone_then_Analyze_panics Scenario.GetRepositoryName
           Scenario.ShortenHash Scenario_errors.clone_fails
           "https://example.org/repo.git" false Scenario_errors.fresh
           "/tmp/repo" "authentication required");
    reflexivity.
Defined.

(** ** AppendTransformer *)

(** X14.  [AppendTransformer] registers first and logs the name after: a
    transformer that is there is added at the end of the list and its name
    logged; a nil one makes the call panic when its name is read, and the
    nil entry stays registered. *)
Theorem AppendTransformer_registers_before_naming (t : ptr) (w : World) :
  AppendTransformer t w
  = match objs w !! t with
    | Some o =>
        (Returned tt,
         mkWorld
           (mkDisdriller (repository (driller w)) (transformer (driller w) ++ [t])
              (config (driller w)))
           (strs w) (objs w)
           (trace w ++ [EvLogFound (Transformer_GetName o)]))
    | None =>
        (Panicked nil_dereference,
         mkWorld
           (mkDisdriller (repository (driller w)) (transformer (driller w) ++ [t])
              (config (driller w)))
           (strs w) (objs w) (trace w))
    end.
Proof.
  unfold AppendTransformer. run.
  destruct (objs w !! t) as [o|]; reflexivity.
Qed.

(** ** GetMetaInfos *)

Section MetaInfosEdges.

Variable GetMetaInfo : Transformer -> list Meta.t.

(** X15.  With the registered transformers [os] all there, what
    [GetMetaInfos] returns splits at their number: the entries before are
    zero values, the entries from there on are the transformers' own, in
    registration order; the engine is left as it was. *)
Theorem GetMetaInfos_zero_values_then_entries (os : list Transformer)
    (w : World) :
  Forall2 (fun t o => objs w !! t = Some o) (transformer (driller w)) os ->
  exists metas,
    GetMetaInfos GetMetaInfo w = (Returned metas, w)
    /\ take (List.length os) metas = replicate (List.length os) Meta.zero
    /\ drop (List.length os) metas = concat (map GetMetaInfo os)
    /\ List.length metas
       = (List.length os + List.length (concat (map GetMetaInfo os)))%nat.
Proof.
  intros Hts. eexists. split; [by apply GetMetaInfos_spec|].
  split; [|split].
  - rewrite take_app_length'; [done|]. by rewrite length_replicate.
  - rewrite drop_app_length'; [done|]. by rewrite length_replicate.
  - by rewrite length_app, length_replicate.
Qed.

(** X16.  A nil transformer among the registered ones: [GetMetaInfos]
    panics when it reaches it, and returns no list. *)
Theorem GetMetaInfos_panics_on_nil (w : World) :
  (exists t, t ∈ transformer (driller w) /\ objs w !! t = None) ->
  GetMetaInfos GetMetaInfo w = (Panicked nil_dereference, w).
Proof.
  intros (t & Hin & Ht). unfold GetMetaInfos. run.
  generalize (replicate (List.length (transformer (driller w))) Meta.zero).
  induction (transformer (driller w)) as [|t' ts IH]; intros metas.
  - by apply elem_of_nil in Hin.
  - cbn [GetMetaInfos_loop]. run.
    destruct (objs w !! t') as [o|] eqn:Ht'; [|reflexivity].
    run. apply IH.
    apply elem_of_cons in Hin as [->|Hin]; [congruence|done].
Qed.

End MetaInfosEdges.

Lemma GetMetaInfos_zero_values_then_entries_witness :
  exists metas,
    GetMetaInfos Scenario.GetMetaInfo Scenario.scenario_A
    = (Returned metas, Scenario.scenario_A)
    /\ take 2 metas = replicate 2 Meta.zero
    /\ drop 2 metas
       = concat (map Scenario.GetMetaInfo
                   [CommitHistory CommitHistoryTransformer.GetInstance;
                    CommitContent Scenario.file_inventory])
    /\ List.length metas
       = (2 + List.length
                (concat (map Scenario.GetMetaInfo
                           [CommitHistory CommitHistoryTransformer.GetInstance;
                            CommitContent Scenario.file_inventory])))%nat.
Proof.
  apply (GetMetaInfos_zero_values_then_entries Scenario.GetMetaInfo
           [CommitHistory CommitHistoryTransformer.GetInstance;
            CommitContent Scenario.file_inventory] Scenario.scenario_A).
  repeat constructor.
Defined.

Lemma GetMetaInfos_panics_on_nil_witness :
  let w :=
    mkWorld (mkDisdriller None [0%nat; 5%nat] None) []
      [CommitHistory CommitHistoryTransformer.GetInstance] [] in
  GetMetaInfos Scenario.GetMetaInfo w = (Panicked nil_dereference, w).
Proof.
  apply (GetMetaInfos_panics_on_nil Scenario.GetMetaInfo
           (mkWorld (mkDisdriller None [0%nat; 5%nat] None) []
              [CommitHistory CommitHistoryTransformer.GetInstance] [])).
  exists 5%nat. split; [|reflexivity].
  apply elem_of_cons. right. apply elem_of_cons. by left.
Defined.

(** ** Analyze: before and around the walks *)

Section AnalyzeEdges.

Variable GetRepositoryName : RepositoryConfig.t -> string.
Variable ShortenHash : string -> string.

Abbreviation Analyze' := (Analyze GetRepositoryName ShortenHash).
Abbreviation Analyze_loop' := (Analyze_loop GetRepositoryName ShortenHash).

(** The events of [Analyze] up to the resolution of the head. *)
Lemma Analyze_prelude (w : World) (repo : Repository) (head : Hash) :
  repository (driller w) = Some repo ->
  Head repo = inr head ->
  Analyze' w
  = Analyze_loop' repo head (List.length (transformer (driller w))) 0
      (transformer (driller w))
      (mkWorld (driller w) (strs w) (objs w)
         (trace w ++ [EvProgress "Starting analysis...";
                      EvLogCount (List.length (transformer (driller w)));
                      EvRepoHead])).
Proof.
  intros Hr Hh. unfold Analyze. run. rewrite Hr. run. rewrite Hh. run.
  by rewrite <- !app_assoc.
Qed.

(** X17.  [repository.Head()] fails: the error is logged and the process
    exits; the history is not read, no transformer is visited or exported. *)
Theorem Analyze_Head_failure_exits (w : World) (repo : Repository)
    (err : string) :
  repository (driller w) = Some repo ->
  Head repo = inl err ->
  Analyze' w
  = (Exited err,
     mkWorld (driller w) (strs w) (objs w)
       (trace w ++ [EvProgress "Starting analysis...";
                    EvLogCount (List.length (transformer (driller w)));
                    EvRepoHead; EvLog err])).
Proof.
  intros Hr Hh. unfold Analyze. run. rewrite Hr. run. rewrite Hh. run.
  by rewrite <- !app_assoc.
Qed.

(** X18.  No transformer registered: [Analyze] announces the analysis,
    resolves the head and returns; the history is never read. *)
Theorem Analyze_without_transformers_reads_no_history (w : World)
    (repo : Repository) (head : Hash) :
  repository (driller w) = Some repo ->
  Head repo = inr head ->
  transformer (driller w) = [] ->
  Analyze' w
  = (Returned tt,
     mkWorld (driller w) (strs w) (objs w)
       (trace w ++ [EvProgress "Starting analysis..."; EvLogCount 0; EvRepoHead])).
Proof.
  intros Hr Hh Hts. rewrite (Analyze_prelude w repo head Hr Hh).
  rewrite Hts. reflexivity.
Qed.

(** X19.  [repository.Log] fails: the error is logged and the process exits
    at the first transformer, whatever it is, before it is visited; the
    transformers after it are not run and nothing is exported. *)
Theorem Analyze_Log_failure_exits (w : World) (repo : Repository) (head : Hash)
    (t : ptr) (ts : list ptr) (err : string) :
  repository (driller w) = Some repo ->
  Head repo = inr head ->
  transformer (driller w) = t :: ts ->
  Log repo head = inl err ->
  Analyze' w
  = (Exited err,
     mkWorld (driller w) (strs w) (objs w)
       (trace w ++ [EvProgress "Starting analysis...";
                    EvLogCount (S (List.length ts));
                    EvRepoHead; EvCall (CallLog head); EvLog err])).
Proof.
  intros Hr Hh Hts HL. rewrite (Analyze_prelude w repo head Hr Hh).
  rewrite Hts. cbn [Analyze_loop List.length]. run. rewrite HL. run.
  by rewrite <- !app_assoc.
Qed.

(** X20.  The error a history walk ends with is not read: the loop of
    [Analyze] over a repository whose walk yields [commits] and then fails
    does exactly what it does over a repository whose walk yields [commits]
    and succeeds: the same outcome, the same buffers, the same exports. *)
Theorem Analyze_loop_ignores_walk_error (repo : Repository) (head : Hash)
    (commits : list Commit) (err : string) (n : nat) (ts : list ptr) :
  Log repo head = inr (commits, Some err) ->
  forall (i : nat) (w : World),
    Analyze_loop' repo head n i ts w
    = Analyze_loop'
        (mkRepository (Head repo) (fun _ => inr (commits, None)))
        head n i ts w.
Proof.
  intros HL. induction ts as [|t rest IH]; intros i w; [reflexivity|].
  cbn [Analyze_loop]. rewrite !bind_unfold. cbn [emit].
  rewrite !bind_unfold. rewrite HL. cbn [Log mret M_ret].
  rewrite !bind_unfold.
  destruct (deref t _) as [[o| |] w1]; [|reflexivity|reflexivity].
  rewrite !bind_unfold. cbn [emit fst]. rewrite !bind_unfold.
  destruct (commits_ForEach _ _ _ _ _ _) as [[c| |] w2];
    [|reflexivity|reflexivity].
  rewrite !bind_unfold.
  destruct (Export t w2) as [[[]| |] w3]; [|reflexivity|reflexivity].
  apply IH.
Qed.

End AnalyzeEdges.

Lemma Analyze_Head_failure_exits_witness :
  let w :=
    Scenario.engine Scenario_errors.no_head
      [CommitHistory CommitHistoryTransformer.GetInstance] in
  Analyze Scenario.GetRepositoryName Scenario.ShortenHash w
  = (Exited "reference not found",
     mkWorld (driller w) (strs w) (objs w)
       (trace w ++ [EvProgress "Starting analysis...";
                    EvLogCount (List.length (transformer (driller w)));
                    EvRepoHead; EvLog "reference not found"])).
Proof.
  apply (Analyze_Head_failure_exits Scenario.GetRepositoryName
           Scenario.ShortenHash
           (Scenario.engine Scenario_errors.no_head
              [CommitHistory CommitHistoryTransformer.GetInstance])
           Scenario_errors.no_head "reference not found");
    reflexivity.
Defined.

Lemma Analyze_without_transformers_reads_no_history_witness :
  let w :=
    Scenario.engine (Scenario.repository_of [Scenario.C1] Scenario.hash_C1) [] in
  Analyze Scenario.GetRepositoryName Scenario.ShortenHash w
  = (Returned tt,
     mkWorld (driller w) (strs w) (objs w)
       (trace w ++ [EvProgress "Starting analysis..."; EvLogCount 0; EvRepoHead])).
Proof.
  apply (Analyze_without_transformers_reads_no_history
           Scenario.GetRepositoryName Scenario.ShortenHash
           (Scenario.engine
              (Scenario.repository_of [Scenario.C1] Scenario.hash_C1) [])
           (Scenario.repository_of [Scenario.C1] Scenario.hash_C1)
           Scenario.hash_C1);
    reflexivity.
Defined.

Lemma Analyze_Log_failure_exits_witness :
  let w :=
    Scenario.engine Scenario_errors.no_log
      [CommitHistory CommitHistoryTransformer.GetInstance;
       CommitContent Scenario.file_inventory] in
  Analyze Scenario.GetRepositoryName Scenario.ShortenHash w
  = (Exited "object not found",
     mkWorld (driller w) (strs w) (objs w)
       (trace w ++ [EvProgress "Starting analysis..."; EvLogCount 2;
                    EvRepoHead; EvCall (CallLog Scenario.hash_C2);
                    EvLog "object not found"])).
Proof.
  apply (Analyze_Log_failure_exits Scenario.GetRepositoryName
           Scenario.ShortenHash
           (Scenario.engine Scenario_errors.no_log
              [CommitHistory CommitHistoryTransformer.GetInstance;
               CommitContent Scenario.file_inventory])
           Scenario_errors.no_log Scenario.hash_C2 0%nat [1%nat]
           "object not found");
    reflexivity.
Defined.

Lemma Analyze_loop_ignores_walk_error_witness :
  Analyze_loop Scenario.GetRepositoryName Scenario.ShortenHash
    Scenario_errors.broken_walk Scenario.hash_C2 2 0 [0%nat; 1%nat]
    Scenario.scenario_A
  = Analyze_loop Scenario.GetRepositoryName Scenario.ShortenHash
      (mkRepository (Head Scenario_errors.broken_walk)
         (fun _ => inr ([Scenario.C2; Scenario.C1], None)))
      Scenario.hash_C2 2 0 [0%nat; 1%nat] Scenario.scenario_A.
Proof.
  apply (Analyze_loop_ignores_walk_error Scenario.GetRepositoryName
           Scenario.ShortenHash Scenario_errors.broken_walk Scenario.hash_C2
           [Scenario.C2; Scenario.C1] "object not found" 2 [0%nat; 1%nat]).
  reflexivity.
Defined.

(** ** Analyze: the counter of processed files *)

Lemma processed_app (tr1 tr2 : list Event) :
  processed (tr1 ++ tr2) = processed tr1 ++ processed tr2.
Proof. apply omap_app. Qed.

Lemma processed_CopyFile (t : ptr) (fs : list File) :
  processed (map (EvCopyFile t) fs) = [].
Proof. induction fs as [|f rest IH]; [done|]. exact IH. Qed.

Lemma files_enumerated_cons (commit : Commit) (rest : list Commit) :
  files_enumerated (commit :: rest)
  = match Files commit with
    | FilesError _ => files_enumerated rest
    | FileIter fs _ => (List.length fs + files_enumerated rest)%nat
    end.
Proof. reflexivity. Qed.

Section Counter.

Variable GetRepositoryName : RepositoryConfig.t -> string.
Variable ShortenHash : string -> string.

Abbreviation commits_ForEach' := (commits_ForEach GetRepositoryName ShortenHash).

Lemma commits_ForEach_counter (t : ptr) (commits : list Commit) :
  forall (count : Z) (w : World) (v : CommitContentTransformer.t),
    objs w !! t = Some (CommitContent v) ->
    Forall no_iteration_error commits ->
    - 2 ^ 63 <= count - Z.of_nat (List.length commits) ->
    count + Z.of_nat (files_enumerated commits) < 2 ^ 63 ->
    Z.of_nat (files_enumerated commits) < 2 ^ 63 ->
    exists w',
      commits_ForEach' t commits count w
      = (Returned (count + total_count commits), w')
      /\ processed (trace w')
         = processed (trace w)
           ++ List.filter (fun c => negb (c =? 0)) (running_counts count commits).
Proof.
  induction commits as [|commit rest IH]; intros count w v Ht Hok Hlo Hhi Hfs.
  - exists w. cbn. by rewrite Z.add_0_r, app_nil_r.
  - apply Forall_cons in Hok as [Hc Hrest].
    rewrite files_enumerated_cons in Hhi, Hfs.
    cbn [commits_ForEach running_counts total_count fold_right List.filter].
    fold (total_count rest).
    rewrite bind_unfold. cbn [emit]. rewrite bind_unfold.
    set (w1 := mkWorld (driller w) (strs w) (objs w)
                 (trace w ++ [EvCall (CallVisitCommit t commit)])).
    assert (Ht1 : objs w1 !! t = Some (CommitContent v)) by exact Ht.
    assert (Hp1 : processed (trace w1) = processed (trace w)).
    { unfold w1. cbn [trace]. rewrite processed_app. cbn. by rewrite app_nil_r. }
    cbn [List.length] in Hlo.
    unfold no_iteration_error in Hc. unfold visit_count.
    destruct (Files commit) as [err|fs [err|]] eqn:Hf; [| done |].
    + rewrite (visitCommit_CommitContent_Files_error _ _ _ _ _ v err Ht1 Hf).
      rewrite bind_unfold.
      assert (Hw : wrap64 (count + -1) = count + -1)
        by (apply wrap64_small; lia).
      rewrite Hw.
      destruct (IH (count + -1)
                  (if count + -1 =? 0 then w1
                   else mkWorld (driller w1) (strs w1) (objs w1)
                          (trace w1 ++ [EvProcessed (count + -1)]))
                  v) as (w' & Hrun & Hpr); try done; try lia.
      { by destruct (count + -1 =? 0). }
      exists w'. split.
      * destruct (count + -1 =? 0); cbn [mret M_ret emit];
          rewrite Hrun; f_equal; f_equal; lia.
      * rewrite Hpr. destruct (count + -1 =? 0); cbn [negb trace].
        -- by rewrite Hp1.
        -- rewrite processed_app, Hp1, <- app_assoc. reflexivity.
    + rewrite (visitCommit_CommitContent _ _ _ _ _ v fs Ht1 Hf).
      rewrite bind_unfold.
      rewrite count_files_length by lia.
      set (n := Z.of_nat (List.length fs)) in *.
      assert (Hw : wrap64 (count + n) = count + n)
        by (apply wrap64_small; lia).
      rewrite Hw.
      set (w2 := mkWorld (driller w1) (strs w1) (<[t := _]> (objs w1)) _).
      assert (Ht2 : objs w2 !! t
                    = Some (CommitContent
                              (CommitContentTransformer.AppendFileContentVertices
                                 v (map (file_row commit) fs)))).
      { unfold w2. cbn [objs]. apply list_lookup_insert_eq.
        by eapply lookup_lt_Some. }
      assert (Hp2 : processed (trace w2) = processed (trace w)).
      { unfold w2. cbn [trace].
        by rewrite processed_app, processed_CopyFile, app_nil_r. }
      destruct (IH (count + n)
                  (if count + n =? 0 then w2
                   else mkWorld (driller w2) (strs w2) (objs w2)
                          (trace w2 ++ [EvProcessed (count + n)]))
                  (CommitContentTransformer.AppendFileContentVertices
                     v (map (file_row commit) fs)))
        as (w' & Hrun & Hpr); try done; try lia.
      { by destruct (count + n =? 0). }
      exists w'. split.
      * destruct (count + n =? 0); cbn [mret M_ret emit];
          rewrite Hrun; f_equal; f_equal; lia.
      * rewrite Hpr. destruct (count + n =? 0); cbn [negb trace].
        -- by rewrite Hp2.
        -- rewrite processed_app, Hp2, <- app_assoc. reflexivity.
Qed.

Lemma total_count_files_minus_failures (commits : list Commit) :
  total_count commits
  = Z.of_nat (files_enumerated commits) - Z.of_nat (failed_enumerations commits).
Proof.
  induction commits as [|commit rest IH]; [reflexivity|].
  unfold total_count, files_enumerated, failed_enumerations in *.
  cbn [fold_right]. unfold visit_count at 1. destruct (Files commit); lia.
Qed.

(** X21.  A walk by the file-inventory transformer over commits whose
    trees are enumerated to the end or not at all: the counter ends at the
    number of files enumerated minus one for every commit whose
    [commit.Files()] failed, and the counts printed are the counter after
    each commit, a zero left out (sizes within a Go [int]). *)
Theorem commits_ForEach_counts_files_minus_failures (t : ptr)
    (commits : list Commit) (w : World) (v : CommitContentTransformer.t) :
  objs w !! t = Some (CommitContent v) ->
  Forall no_iteration_error commits ->
  Z.of_nat (List.length commits) <= 2 ^ 63 ->
  Z.of_nat (files_enumerated commits) < 2 ^ 63 ->
  exists w',
    commits_ForEach' t commits 0 w
    = (Returned (Z.of_nat (files_enumerated commits)
                 - Z.of_nat (failed_enumerations commits)), w')
    /\ processed (trace w')
       = processed (trace w)
         ++ List.filter (fun c => negb (c =? 0)) (running_counts 0 commits).
Proof.
  intros Ht Hok Hn Hfs.
  destruct (commits_ForEach_counter t commits 0 w v Ht Hok) as (w' & Hrun & Hpr);
    try lia.
  exists w'. split; [|exact Hpr].
  by rewrite Hrun, Z.add_0_l, total_count_files_minus_failures.
Qed.

End Counter.

Lemma commits_ForEach_counts_files_minus_failures_witness :
  exists w',
    commits_ForEach Scenario.GetRepositoryName Scenario.ShortenHash 1%nat
      [Scenario.merge; Scenario.C2_broken; Scenario.C1] 0 Scenario.scenario_A
    = (Returned (Z.of_nat 3 - Z.of_nat 1), w')
    /\ processed (trace w')
       = processed (trace Scenario.scenario_A) ++ [2; 1; 2].
Proof.
  apply (commits_ForEach_counts_files_minus_failures
           Scenario.GetRepositoryName Scenario.ShortenHash 1%nat
           [Scenario.merge; Scenario.C2_broken; Scenario.C1]
           Scenario.scenario_A Scenario.file_inventory).
  - reflexivity.
  - repeat constructor.
  - cbn. lia.
  - cbn. lia.
Defined.

(** ** Analyze: what a commit-history transformer exports *)

Lemma exports_app (tr1 tr2 : list Event) :
  exports (tr1 ++ tr2) = exports tr1 ++ exports tr2.
Proof. apply omap_app. Qed.

Lemma Export_CommitHistory (t : ptr) (w : World)
    (v : CommitHistoryTransformer.t) :
  objs w !! t = Some (CommitHistory v) ->
  Export t w
  = (Returned tt,
     mkWorld (driller w) (strs w) (objs w)
       (trace w
        ++ [EvCall (CallExport t);
            EvExportRows (CommitHistoryTransformer.vertexOutput v)
              (VertexRows (CommitHistoryTransformer.vertexData v));
            EvExportRows (CommitHistoryTransformer.edgeOutput v)
              (EdgeRows (map (edge_value (strs w))
                           (CommitHistoryTransformer.edgeData v)))])).
Proof.
  intros Ht. unfold Export. run. rewrite Ht. run.
  unfold CommitHistoryTransformer_Export. run.
  by rewrite <- !app_assoc.
Qed.

Section CommitGraphExport.

Variable GetRepositoryName : RepositoryConfig.t -> string.
Variable ShortenHash : string -> string.

Abbreviation commits_ForEach' := (commits_ForEach GetRepositoryName ShortenHash).
Abbreviation Analyze' := (Analyze GetRepositoryName ShortenHash).

(** The vertex [visitCommit] builds for a commit. *)
Abbreviation vertex cfg :=
  (fun commit =>
     vertex_of (GetRepositoryName cfg)
       (ShortenHash (Hash_String (Commit_Hash commit))) commit).

Lemma commits_ForEach_CommitHistory (t : ptr) (cfg : RepositoryConfig.t)
    (commits : list Commit) :
  forall (w : World) (v : CommitHistoryTransformer.t),
    edges_allocated w ->
    objs w !! t = Some (CommitHistory v) ->
    config (driller w) = Some cfg ->
    exists w' v',
      commits_ForEach' t commits 0 w = (Returned 0, w')
      /\ objs w' !! t = Some (CommitHistory v')
      /\ driller w' = driller w
      /\ CommitHistoryTransformer.vertexOutput v'
         = CommitHistoryTransformer.vertexOutput v
      /\ CommitHistoryTransformer.edgeOutput v'
         = CommitHistoryTransformer.edgeOutput v
      /\ CommitHistoryTransformer.vertexData v'
         = CommitHistoryTransformer.vertexData v ++ map (vertex cfg) commits
      /\ map (edge_value (strs w')) (CommitHistoryTransformer.edgeData v')
         = map (edge_value (strs w)) (CommitHistoryTransformer.edgeData v)
           ++ concat (map commit_edges commits)
      /\ exports (trace w') = exports (trace w)
      /\ processed (trace w') = processed (trace w).
Proof.
  induction commits as [|commit rest IH]; intros w v Hall Ht Hc.
  - exists w, v. cbn. rewrite !app_nil_r. by repeat split.
  - cbn [commits_ForEach]. rewrite bind_unfold. cbn [emit]. rewrite bind_unfold.
    set (w1 := mkWorld (driller w) (strs w) (objs w)
                 (trace w ++ [EvCall (CallVisitCommit t commit)])).
    assert (Hall1 : edges_allocated w1) by (by apply edges_allocated_trace).
    assert (Ht1 : objs w1 !! t = Some (CommitHistory v)) by exact Ht.
    assert (Hc1 : config (driller w1) = Some cfg) by exact Hc.
    destruct (visitCommit_effect GetRepositoryName ShortenHash commit t w1 Hall1)
      as [_ E].
    rewrite (visitCommit_CommitHistory _ _ _ _ _ v cfg Ht1 Hc1) in E |- *.
    cbn [snd] in E. rewrite bind_unfold.
    change (wrap64 (0 + 0) =? 0) with true. cbn [mret M_ret].
    set (v2 := visited_history GetRepositoryName ShortenHash cfg commit (strs w1) v)
      in *.
    set (w2 := mkWorld (driller w1) (strs w1 ++ _) (<[t := CommitHistory v2]> _) _)
      in *.
    assert (Ht2 : objs w2 !! t = Some (CommitHistory v2)).
    { unfold w2. cbn [objs]. apply list_lookup_insert_eq.
      by eapply lookup_lt_Some. }
    assert (He : map (edge_value (strs w2)) (CommitHistoryTransformer.edgeData v2)
                 = map (edge_value (strs w)) (CommitHistoryTransformer.edgeData v)
                   ++ commit_edges commit).
    { pose proof (eff_dataset _ _ _ _ _ E t) as Hd.
      unfold dataset in Hd. rewrite Ht2, Ht1, kinds_lookup, Ht1, Hc1 in Hd.
      unfold only in Hd. rewrite decide_True in Hd by done.
      cbn in Hd. by injection Hd. }
    destruct (IH w2 v2 (eff_allocated _ _ _ _ _ E) Ht2 Hc)
      as (w' & v' & Hrun & Ht' & Hd' & Hvo & Heo & Hvd & Hed & Hex & Hpr).
    exists w', v'. split; [exact Hrun|]. split; [exact Ht'|].
    split; [exact Hd'|]. split; [exact Hvo|]. split; [exact Heo|].
    split; [|split; [|split]].
    + rewrite Hvd. cbn. by rewrite <- app_assoc.
    + rewrite Hed, He. cbn [map concat]. by rewrite <- app_assoc.
    + rewrite Hex. unfold w2, w1. cbn [trace]. rewrite exports_app. cbn.
      by rewrite app_nil_r.
    + rewrite Hpr. unfold w2, w1. cbn [trace]. rewrite processed_app. cbn.
      by rewrite app_nil_r.
Qed.

(** X22.  An engine with one transformer registered, the commit-history
    transformer, and a history that can be read: [Analyze] returns and hands
    two datasets to the sink, the vertices under the vertex output and then
    the edges under the edge output.  The vertices are those buffered before
    followed by one vertex a commit, in the order of the walk; the edges are
    those buffered before followed, commit by commit, by the edges of the
    commit.  No count of processed files is printed. *)
Theorem Analyze_exports_commit_graph (w : World) (t : ptr)
    (v : CommitHistoryTransformer.t) (cfg : RepositoryConfig.t)
    (repo : Repository) (head : Hash) (commits : list Commit)
    (err : option string) :
  edges_allocated w ->
  transformer (driller w) = [t] ->
  objs w !! t = Some (CommitHistory v) ->
  config (driller w) = Some cfg ->
  repository (driller w) = Some repo ->
  Head repo = inr head ->
  Log repo head = inr (commits, err) ->
  exists w',
    Analyze' w = (Returned tt, w')
    /\ exports (trace w')
       = exports (trace w)
         ++ [(CommitHistoryTransformer.vertexOutput v,
              VertexRows (CommitHistoryTransformer.vertexData v
                          ++ map (vertex cfg) commits));
             (CommitHistoryTransformer.edgeOutput v,
              EdgeRows (map (edge_value (strs w))
                          (CommitHistoryTransformer.edgeData v)
                        ++ concat (map commit_edges commits)))]
    /\ processed (trace w') = processed (trace w).
Proof.
  intros Hall Hts Ht Hc Hr Hh HL.
  rewrite (Analyze_prelude _ _ w repo head Hr Hh), Hts.
  cbn [Analyze_loop List.length]. rewrite bind_unfold. cbn [emit].
  rewrite bind_unfold, HL. cbn [mret M_ret fst]. rewrite bind_unfold.
  unfold deref, dynamic. rewrite bind_unfold. cbn [objs]. rewrite Ht.
  cbn [mret M_ret]. rewrite bind_unfold. cbn [emit]. rewrite bind_unfold.
  set (w1 := mkWorld _ _ _ _).
  assert (Hall1 : edges_allocated w1) by (by apply edges_allocated_trace).
  destruct (commits_ForEach_CommitHistory t cfg commits w1 v Hall1 Ht Hc)
    as (w2 & v' & Hrun & Ht' & _ & Hvo & Heo & Hvd & Hed & Hex & Hpr).
  rewrite Hrun, bind_unfold, (Export_CommitHistory t w2 v' Ht').
  eexists. split; [reflexivity|]. cbn [trace].
  rewrite exports_app, processed_app, Hex, Hpr, Hvo, Heo, Hvd, Hed.
  unfold w1. cbn [trace strs].
  rewrite <- !app_assoc, !exports_app, !processed_app. cbn.
  by rewrite !app_nil_r.
Qed.

End CommitGraphExport.

Lemma Analyze_exports_commit_graph_witness :
  let w :=
    Scenario.engine
      (Scenario.repository_of [Scenario.merge; Scenario.C2; Scenario.C1]
         Scenario.hash_M)
      [CommitHistory CommitHistoryTransformer.GetInstance] in
  exists w',
    Analyze Scenario.GetRepositoryName Scenario.ShortenHash w = (Returned tt, w')
    /\ exports (trace w')
       = exports (trace w)
         ++ [("data/commit-vertices.parquet",
              VertexRows
                ([] ++ map (fun commit =>
                              vertex_of (Scenario.GetRepositoryName Scenario.cfg)
                                (Scenario.ShortenHash
                                   (Hash_String (Commit_Hash commit))) commit)
                         [Scenario.merge; Scenario.C2; Scenario.C1]));
             ("data/commit-edges.parquet",
              EdgeRows
                ([] ++ concat (map commit_edges
                                 [Scenario.merge; Scenario.C2; Scenario.C1])))]
    /\ processed (trace w') = processed (trace w).
Proof.
  apply (Analyze_exports_commit_graph Scenario.GetRepositoryName
           Scenario.ShortenHash
           (Scenario.engine
              (Scenario.repository_of [Scenario.merge; Scenario.C2; Scenario.C1]
                 Scenario.hash_M)
              [CommitHistory CommitHistoryTransformer.GetInstance])
           0%nat CommitHistoryTransformer.GetInstance Scenario.cfg
           (Scenario.repository_of [Scenario.merge; Scenario.C2; Scenario.C1]
              Scenario.hash_M)
           Scenario.hash_M [Scenario.merge; Scenario.C2; Scenario.C1] None);
    try reflexivity.
  apply edges_allocated_Forall. repeat constructor.
Defined.

(** ** Analyze: a transformer registered twice *)

Section RegisteredTwice.

Variable GetRepositoryName : RepositoryConfig.t -> string.
Variable ShortenHash : string -> string.

Abbreviation Analyze' := (Analyze GetRepositoryName ShortenHash).
Abbreviation walk_rows' := (walk_rows GetRepositoryName ShortenHash).

(** X23.  Registration does not look for duplicates: with the same
    transformer registered twice, [Analyze] reads the history twice, visits
    every commit twice with that transformer and exports it twice, and the
    transformer ends with the rows of the walk appended twice. *)
Theorem Analyze_runs_a_duplicate_registration_twice (w : World) (t : ptr)
    (k : Kind) (repo : Repository) (head : Hash) (commits : list Commit)
    (err : option string) :
  edges_allocated w ->
  transformer (driller w) = [t; t] ->
  repository (driller w) = Some repo ->
  Head repo = inr head ->
  Log repo head = inr (commits, err) ->
  kinds w !! t = Some k ->
  walk_returns (config (driller w)) (Some k) commits = true ->
  exists w',
    Analyze' w = (Returned tt, w')
    /\ calls (trace w')
       = calls (trace w)
         ++ (CallLog head :: map (CallVisitCommit t) commits ++ [CallExport t])
         ++ (CallLog head :: map (CallVisitCommit t) commits ++ [CallExport t])
    /\ dataset w' t
       = rows_app (dataset w t)
           (rows_app (walk_rows' (config (driller w)) (Some k) commits)
              (walk_rows' (config (driller w)) (Some k) commits)).
Proof.
  intros Hall Hts Hr Hh HL Hk Hwalk.
  pose proof (Analyze_effect GetRepositoryName ShortenHash w Hall) as HA.
  unfold analyze_returns, analyze_rows in HA. rewrite Hr, Hh, Hts in HA.
  cbn [loop_returns loop_rows] in HA. rewrite HL, Hk in HA.
  cbn [fst] in HA. rewrite Hwalk in HA. cbn [andb] in HA.
  destruct HA as (Hret & repo' & head' & Hr' & Hh' & E).
  injection Hr' as <-. rewrite Hh in Hh'. injection Hh' as <-.
  exists (snd (Analyze' w)). split; [|split].
  - destruct (Analyze' w) as [out w']. cbn in *. by subst.
  - rewrite (eff_calls _ _ _ _ _ E). unfold schedule, walk_of.
    rewrite HL. cbn. by rewrite app_nil_r.
  - rewrite (eff_dataset _ _ _ _ _ E). unfold only.
    rewrite decide_True by done. by rewrite rows_app_no_rows_r.
Qed.

End RegisteredTwice.

Lemma Analyze_runs_a_duplicate_registration_twice_witness :
  let w :=
    mkWorld
      (mkDisdriller
         (Some (Scenario.repository_of [Scenario.C2; Scenario.C1] Scenario.hash_C2))
         [0%nat; 0%nat] (Some Scenario.cfg))
      [] [CommitContent Scenario.file_inventory] [] in
  let commits := [Scenario.C2; Scenario.C1] in
  exists w',
    Analyze Scenario.GetRepositoryName Scenario.ShortenHash w = (Returned tt, w')
    /\ calls (trace w')
       = calls (trace w)
         ++ (CallLog Scenario.hash_C2
             :: map (CallVisitCommit 0%nat) commits ++ [CallExport 0%nat])
         ++ (CallLog Scenario.hash_C2
             :: map (CallVisitCommit 0%nat) commits ++ [CallExport 0%nat])
    /\ dataset w' 0%nat
       = rows_app (dataset w 0%nat)
           (rows_app
              (walk_rows Scenario.GetRepositoryName Scenario.ShortenHash
                 (config (driller w)) (Some KCommitContent) commits)
              (walk_rows Scenario.GetRepositoryName Scenario.ShortenHash
                 (config (driller w)) (Some KCommitContent) commits)).
Proof.
  apply (Analyze_runs_a_duplicate_registration_twice
           Scenario.GetRepositoryName Scenario.ShortenHash
           (mkWorld
              (mkDisdriller
                 (Some (Scenario.repository_of [Scenario.C2; Scenario.C1]
                          Scenario.hash_C2))
                 [0%nat; 0%nat] (Some Scenario.cfg))
              [] [CommitContent Scenario.file_inventory] [])
           0%nat KCommitContent
           (Scenario.repository_of [Scenario.C2; Scenario.C1] Scenario.hash_C2)
           Scenario.hash_C2 [Scenario.C2; Scenario.C1] None);
    try reflexivity.
  apply edges_allocated_Forall. repeat constructor.
Defined.

(** ** Analyze: what it never records *)

Lemma emits_ret (Q : Event -> Prop) {A : Type} (a : A) : emits Q (mret a).
Proof. intros w. exists []. split; [by rewrite app_nil_r|constructor]. Qed.

Lemma emits_silent (Q : Event -> Prop) {A : Type} (m : M A) :
  (forall w, trace (snd (m w)) = trace w) -> emits Q m.
Proof.
  intros H w. exists []. rewrite H. split; [by rewrite app_nil_r|constructor].
Qed.

Lemma emits_emit (Q : Event -> Prop) (e : Event) : Q e -> emits Q (emit e).
Proof. intros He w. exists [e]. split; [reflexivity|by constructor]. Qed.

Lemma emits_bind (Q : Event -> Prop) {A B : Type} (m : M A) (f : A -> M B) :
  emits Q m -> (forall a, emits Q (f a)) -> emits Q (m ≫= f).
Proof.
  intros Hm Hf w. rewrite bind_unfold.
  destruct (Hm w) as (tr1 & E1 & F1).
  destruct (m w) as [[a|msg|msg] w1]; cbn [snd] in *.
  - destruct (Hf a w1) as (tr2 & E2 & F2).
    exists (tr1 ++ tr2). rewrite E2, E1, <- app_assoc.
    split; [reflexivity|]. by apply Forall_app.
  - by exists tr1.
  - by exists tr1.
Qed.

Lemma emits_log_Fatal (Q : Event -> Prop) {A : Type} (msg : string) :
  Q (EvLog msg) -> emits Q (@log_Fatal A msg).
Proof.
  intros H. unfold log_Fatal. apply emits_bind; [by apply emits_emit|].
  intros _. by apply emits_silent.
Qed.

Lemma emits_deref (Q : Event -> Prop) (t : ptr) : emits Q (deref t).
Proof.
  apply emits_silent. intros w. unfold deref. run. by destruct (objs w !! t).
Qed.

Lemma emits_on_CommitHistory (Q : Event -> Prop) (v : ptr)
    (f : CommitHistoryTransformer.t -> Strings
         -> CommitHistoryTransformer.t * Strings) :
  emits Q (on_CommitHistory v f).
Proof.
  apply emits_silent. intros w. unfold on_CommitHistory.
  destruct (objs w !! v) as [[x| | |]|]; try reflexivity.
  by destruct (f x (strs w)).
Qed.

Lemma emits_on_CommitContent (Q : Event -> Prop) (v : ptr)
    (f : CommitContentTransformer.t -> CommitContentTransformer.t) :
  emits Q (on_CommitContent v f).
Proof.
  apply emits_silent. intros w. unfold on_CommitContent.
  by destruct (objs w !! v) as [[| | |]|].
Qed.

Lemma emits_on_StructureInfo (Q : Event -> Prop) (v : ptr)
    (f : StructureInfoTransformer.t -> StructureInfoTransformer.t) :
  emits Q (on_StructureInfo v f).
Proof.
  apply emits_silent. intros w. unfold on_StructureInfo.
  by destruct (objs w !! v) as [[| | |]|].
Qed.

Ltac analysis_events :=
  repeat first
    [ apply emits_ret
    | apply emits_deref
    | apply emits_on_CommitHistory
    | apply emits_on_CommitContent
    | apply emits_on_StructureInfo
    | apply emits_log_Fatal; by split
    | apply emits_emit; by split
    | apply emits_silent; reflexivity
    | apply emits_bind; [|intros ?]
    | match goal with
      | |- emits _ (match ?x with _ => _ end) => destruct x
      end ].

Section NeverRecorded.

Variable GetRepositoryName : RepositoryConfig.t -> string.
Variable ShortenHash : string -> string.

Lemma emits_files_ForEach (v : ptr) (commit : Commit) (fs : list File) :
  forall treeData count,
    emits analysis_event (files_ForEach v commit fs treeData count).
Proof.
  induction fs as [|file rest IH]; intros treeData count;
    cbn [files_ForEach]; analysis_events. apply IH.
Qed.

Lemma emits_visitCommit (commit : Commit) (t : ptr) :
  emits analysis_event (visitCommit GetRepositoryName ShortenHash commit t).
Proof.
  unfold visitCommit, config_GetRepositoryName. analysis_events;
    apply emits_files_ForEach.
Qed.

Lemma emits_commits_ForEach (t : ptr) (commits : list Commit) :
  forall count,
    emits analysis_event
      (commits_ForEach GetRepositoryName ShortenHash t commits count).
Proof.
  induction commits as [|commit rest IH]; intros count;
    cbn [commits_ForEach]; analysis_events;
    first [apply emits_files_ForEach | apply IH].
Qed.

Lemma emits_Export (t : ptr) : emits analysis_event (Export t).
Proof.
  unfold Export, CommitHistoryTransformer_Export,
    CommitContentTransformer_Export, StructureInfoTransformer_Export.
  analysis_events.
Qed.

Lemma emits_Analyze_loop (repo : Repository) (head : Hash) (n : nat)
    (ts : list ptr) :
  forall i,
    emits analysis_event
      (Analyze_loop GetRepositoryName ShortenHash repo head n i ts).
Proof.
  induction ts as [|t rest IH]; intros i; cbn [Analyze_loop]; analysis_events;
    first [apply emits_files_ForEach | apply emits_commits_ForEach | apply IH].
Qed.

(** X24.  Whatever the state and however the run ends, [Analyze] only adds
    to the trace; the first thing it does is to call the progress callback
    with "Starting analysis...", and it never calls it again; and it never
    clones a repository or creates a directory. *)
Theorem Analyze_reports_progress_once_at_start (w : World) :
  exists tr,
    trace (snd (Analyze GetRepositoryName ShortenHash w))
    = trace w ++ EvProgress "Starting analysis..." :: tr
    /\ Forall analysis_event tr.
Proof.
  unfold Analyze. rewrite bind_unfold. cbn [emit].
  match goal with
  | |- context [?m (mkWorld ?d ?s ?o ?tr0)] =>
      assert (H : emits analysis_event m)
        by (analysis_events;
            first [apply emits_files_ForEach | apply emits_commits_ForEach
                  | apply emits_Analyze_loop]);
      destruct (H (mkWorld d s o tr0)) as (tr & E & F)
  end.
  exists tr. cbn [trace] in E. rewrite E, <- app_assoc. by split.
Qed.

End NeverRecorded.

(** ** Witnesses of the earlier lemmas *)

Lemma visitCommit_vertex_hash_shortens_edge_hash_witness :
  let w :=
    Scenario.engine (Scenario.repository_of [Scenario.merge] Scenario.hash_M)
      [CommitHistory CommitHistoryTransformer.GetInstance] in
  let w' :=
    snd (visitCommit Scenario.GetRepositoryName Scenario.ShortenHash
           Scenario.merge 0%nat w) in
  exists v',
    objs w' !! 0%nat = Some (CommitHistory v')
    /\ Forall (fun e =>
                 CommitVertex.CommitHash
                   <$> last (CommitHistoryTransformer.vertexData v')
                 = Some (Scenario.ShortenHash
                           (load (strs w') (CommitEdge.CommitHash e))))
         (drop (List.length
                  (CommitHistoryTransformer.edgeData
                     CommitHistoryTransformer.GetInstance))
            (CommitHistoryTransformer.edgeData v')).
Proof.
  apply (visitCommit_vertex_hash_shortens_edge_hash
           Scenario.GetRepositoryName Scenario.ShortenHash Scenario.merge 0%nat
           (Scenario.engine
              (Scenario.repository_of [Scenario.merge] Scenario.hash_M)
              [CommitHistory CommitHistoryTransformer.GetInstance])
           CommitHistoryTransformer.GetInstance Scenario.cfg);
    reflexivity.
Defined.

Lemma Init_on_disk_ignores_clone_error_witness :
  fst (Init Scenario.GetRepositoryName Scenario_errors.clone_fails
         Scenario_errors.on_disk Scenario_errors.fresh)
  = Returned tt
  /\ repository
       (driller (snd (Init Scenario.GetRepositoryName Scenario_errors.clone_fails
                        Scenario_errors.on_disk Scenario_errors.fresh)))
     = None.
Proof.
  apply (Init_on_disk_ignores_clone_error Scenario.GetRepositoryName
           Scenario_errors.clone_fails "https://example.org/repo.git"
           "/tmp/repo" false Scenario_errors.fresh None
           (Some "authentication required"));
    reflexivity.
Defined.
